(** * elkacal: a shallow embedding of [main.py]

    The script reads a term calendar ([load_semester]), lets the user
    define courses interactively ([create_course]), keeps them in a
    pickle file per calendar name ([main]) and exports them to an
    iCalendar document ([export]).  Python values are modelled as
    Rocq records; prompts read from an explicit stream of user answers;
    the files the script touches are an explicit map from paths to
    contents. *)

From stdpp Require Import base list list_monad strings gmap pretty.
From Stdlib Require Import ZArith Ascii.

Open Scope Z_scope.

(* ------------------------------------------------------------------ *)
(** ** Python values: [dt.date], [dt.time] and the two NamedTuples *)

(** [dt.date]: proleptic Gregorian year, month, day. *)
Record Date := mk_date { year : Z; month : Z; day : Z }.

(** [dt.time] as produced by [strptime(_, '%H:%M').time()]: seconds and
    microseconds are always zero, so they are left out. *)
Record Time := mk_time { hour : Z; minute : Z }.

(** [class ElkaDay(NamedTuple)]. *)
Record ElkaDay := mk_ElkaDay { date : Date; parity : string; weekday : Z }.

(** [class ElkaCourse(NamedTuple)]. *)
Record ElkaCourse := mk_ElkaCourse {
  name : string;
  description : string;
  location : string;
  start_time : Time;
  end_time : Time;
  days : list ElkaDay
}.

#[global] Instance Date_eq_dec : EqDecision Date.
Proof. solve_decision. Defined.
#[global] Instance Time_eq_dec : EqDecision Time.
Proof. solve_decision. Defined.
#[global] Instance ElkaDay_eq_dec : EqDecision ElkaDay.
Proof. solve_decision. Defined.
#[global] Instance ElkaCourse_eq_dec : EqDecision ElkaCourse.
Proof. solve_decision. Defined.

(** Python's [time.__gt__] on two times with zero seconds. *)
Definition time_gtb (t u : Time) : bool :=
  (hour u <? hour t) || ((hour u =? hour t) && (minute u <? minute t)).

(* ------------------------------------------------------------------ *)
(** ** The calendar arithmetic of CPython's [datetime] module *)

Definition is_leap (y : Z) : bool :=
  (y mod 4 =? 0) && (negb (y mod 100 =? 0) || (y mod 400 =? 0)).

Definition days_in_month (y m : Z) : Z :=
  if m =? 2 then (if is_leap y then 29 else 28)
  else if (m =? 4) || (m =? 6) || (m =? 9) || (m =? 11) then 30
  else 31.

(** [_DAYS_BEFORE_MONTH] with the leap day added after February. *)
Definition days_before_month (y m : Z) : Z :=
  nth (Z.to_nat m) [0; 0; 31; 59; 90; 120; 151; 181; 212; 243; 273; 304; 334] 0
  + (if (2 <? m) && is_leap y then 1 else 0).

Definition days_before_year (y : Z) : Z :=
  let y' := y - 1 in y' * 365 + y' / 4 - y' / 100 + y' / 400.

(** [date.toordinal()]: 0001-01-01 is day 1. *)
Definition toordinal (d : Date) : Z :=
  days_before_year (year d) + days_before_month (year d) (month d) + day d.

(** [date.isoweekday()]: Monday is 1, Sunday is 7. *)
Definition isoweekday (d : Date) : Z := (toordinal d + 6) mod 7 + 1.

(** The range check of the [dt.date] constructor. *)
Definition valid_date (y m d : Z) : bool :=
  (1 <=? y) && (y <=? 9999) && (1 <=? m) && (m <=? 12)
  && (1 <=? d) && (d <=? days_in_month y m).

(* ------------------------------------------------------------------ *)
(** ** [strptime]: the regular expressions of CPython's [_strptime]

    A pattern denotes the list of its matches in the priority order of
    Python's backtracking regex engine; [re.match] returns the first. *)

Definition Pat (A : Type) : Type := list ascii -> list (A * list ascii).

Definition pat_ret {A} (a : A) : Pat A := fun s => [(a, s)].

Definition pat_seq {A B} (p : Pat A) (f : A -> Pat B) : Pat B :=
  fun s => flat_map (fun '(a, r) => f a r) (p s).

Definition pat_alt {A} (p q : Pat A) : Pat A := fun s => p s ++ q s.

(** A digit in [lo..hi], i.e. the character class [[lo-hi]]. *)
Definition pat_digit (lo hi : Z) : Pat Z :=
  fun s => match s with
           | c :: r =>
               let n := Z.of_nat (nat_of_ascii c) - 48 in
               if (lo <=? n) && (n <=? hi) then [(n, r)] else []
           | [] => []
           end.

Definition pat_char (c : ascii) : Pat unit :=
  fun s => match s with
           | c' :: r => if ascii_dec c c' then [(tt, r)] else []
           | [] => []
           end.

(** Two character classes in a row, read as a decimal number. *)
Definition pat_two (lo1 hi1 lo2 hi2 : Z) : Pat Z :=
  pat_seq (pat_digit lo1 hi1) (fun a =>
  pat_seq (pat_digit lo2 hi2) (fun b => pat_ret (10 * a + b))).

(** [%Y]: [\d\d\d\d]. *)
Definition pat_Y : Pat Z :=
  pat_seq (pat_two 0 9 0 9) (fun a =>
  pat_seq (pat_two 0 9 0 9) (fun b => pat_ret (100 * a + b))).

(** [%m]: [1[0-2]|0[1-9]|[1-9]]. *)
Definition pat_m : Pat Z :=
  pat_alt (pat_two 1 1 0 2) (pat_alt (pat_two 0 0 1 9) (pat_digit 1 9)).

(** [%d]: [3[01]|[12]\d|0[1-9]|[1-9]| [1-9]]. *)
Definition pat_d : Pat Z :=
  pat_alt (pat_two 3 3 0 1)
  (pat_alt (pat_two 1 2 0 9)
  (pat_alt (pat_two 0 0 1 9)
  (pat_alt (pat_digit 1 9)
           (pat_seq (pat_char " "%char) (fun _ => pat_digit 1 9))))).

(** [%H]: [2[0-3]|[0-1]\d|\d]. *)
Definition pat_H : Pat Z :=
  pat_alt (pat_two 2 2 0 3) (pat_alt (pat_two 0 1 0 9) (pat_digit 0 9)).

(** [%M]: [[0-5]\d|\d]. *)
Definition pat_M : Pat Z := pat_alt (pat_two 0 5 0 9) (pat_digit 0 9).

(** [re.match] followed by the "unconverted data remains" check. *)
Definition strptime_match {A} (p : Pat A) (s : string) : option A :=
  match p (String.list_ascii_of_string s) with
  | (a, []) :: _ => Some a
  | _ => None
  end.

(** [dt.datetime.strptime(date_str, '%Y-%m-%d').date()]. *)
Definition parse_date (s : string) : option Date :=
  match strptime_match
          (pat_seq pat_Y (fun y => pat_seq (pat_char "-"%char) (fun _ =>
           pat_seq pat_m (fun m => pat_seq (pat_char "-"%char) (fun _ =>
           pat_seq pat_d (fun d => pat_ret (y, m, d))))))) s with
  | Some (y, m, d) => if valid_date y m d then Some (mk_date y m d) else None
  | None => None
  end.

(** [dt.datetime.strptime(v, DISPLAY_TIME_FMT).time()] with
    [DISPLAY_TIME_FMT = '%H:%M']. *)
Definition parse_time (s : string) : option Time :=
  strptime_match
    (pat_seq pat_H (fun h => pat_seq (pat_char ":"%char) (fun _ =>
     pat_seq pat_M (fun m => pat_ret (mk_time h m))))) s.

(* ------------------------------------------------------------------ *)
(** ** [int(s)] on a string, base 10 *)

(** ASCII characters that [str.isspace] accepts. *)
Definition is_space (c : ascii) : bool :=
  let n := nat_of_ascii c in
  ((9 <=? n) && (n <=? 13))%nat || ((28 <=? n) && (n <=? 32))%nat.

Fixpoint lstrip (l : list ascii) : list ascii :=
  match l with
  | c :: r => if is_space c then lstrip r else l
  | [] => []
  end.

Definition strip (l : list ascii) : list ascii := rev (lstrip (rev (lstrip l))).

Definition digit_value (c : ascii) : option Z :=
  let n := Z.of_nat (nat_of_ascii c) - 48 in
  if (0 <=? n) && (n <=? 9) then Some n else None.

(** Digits with single underscores between them, accumulated onto
    [acc]; [after_digit] says whether the previous character was a
    digit (an underscore must follow a digit and precede one). *)
Fixpoint int_digits (acc : Z) (after_digit : bool) (l : list ascii) : option Z :=
  match l with
  | [] => if after_digit then Some acc else None
  | c :: r =>
      match digit_value c with
      | Some v => int_digits (10 * acc + v) true r
      | None =>
          if ascii_dec c "_"%char then
            (if after_digit then
               match r with
               | c' :: _ => if digit_value c' then int_digits acc false r else None
               | [] => None
               end
             else None)
          else None
      end
  end.

(** [int(s)]: [None] is the [ValueError]. *)
Definition py_int (s : string) : option Z :=
  match strip (String.list_ascii_of_string s) with
  | "-"%char :: r => option_map Z.opp (int_digits 0 false r)
  | "+"%char :: r => int_digits 0 false r
  | r => int_digits 0 false r
  end.

(* ------------------------------------------------------------------ *)
(** ** [load_semester] *)

(** The body of the loop of [load_semester] on one row of [csv.reader]:
    the unpacking [date_str, parity, weekday_str] fails unless the row
    has three fields; [None] is the exception. *)
Definition load_row (row : list string) : option ElkaDay :=
  match row with
  | [date_str; parity_str; weekday_str] =>
      d ← parse_date date_str;
      wd ← (if String.eqb weekday_str "" then Some (isoweekday d)
            else py_int weekday_str);
      Some (mk_ElkaDay d parity_str wd)
  | _ => None
  end.

(** [load_semester]: the rows of [<sem_code>.csv], in file order. *)
Definition load_semester (rows : list (list string)) : option (list ElkaDay) :=
  mapM load_row rows.

(* ------------------------------------------------------------------ *)
(** ** The prompts of [inquirer]

    A run of the script reads the user's answers in order.  A prompt
    consumes answers; [None] means the answers ran out before the prompt
    was satisfied (the script is still waiting). *)

Inductive answer :=
  | AText (s : string)              (** a line typed at a text prompt *)
  | AChoice (i : nat)               (** the entry picked in a list prompt *)
  | AChecks (toggles : list nat).   (** the entries toggled, in order, in a
                                        checkbox prompt, then Enter *)

Definition M (A : Type) : Type := list answer -> option (A * list answer).

#[global] Instance M_ret : MRet M := fun A x inp => Some (x, inp).
#[global] Instance M_bind : MBind M := fun A B f m inp =>
  match m inp with
  | Some (x, rest) => f x rest
  | None => None
  end.

(** The text of a text prompt's default; no default is the empty text. *)
Definition default_or_empty (default : option string) : string :=
  match default with Some d => d | None => "" end.

(** Python's [list.remove(x)]: drops the first element equal to [x]
    ([ValueError] when there is none is never reached by its callers). *)
Fixpoint py_remove {A} `{EqDecision A} (x : A) (l : list A) : list A :=
  match l with
  | [] => []
  | y :: r => if decide (x = y) then r else y :: py_remove x r
  end.

(** [inquirer.text(message, default=..., validate=...)]: an empty line
    stands for the default; an answer the validator rejects (returns a
    false value or raises) is refused and the prompt asks again. *)
Fixpoint text (default : option string) (validate : string -> bool) : M string :=
  fun inp =>
    match inp with
    | AText s :: rest =>
        let v := if String.eqb s "" then default_or_empty default else s in
        if validate v then Some (v, rest) else text default validate rest
    | _ => None
    end.

(** [inquirer.list_input(message, choices=[(label, value), ...])]. *)
Definition list_input {A} (choices : list (string * A)) : M A :=
  fun inp =>
    match inp with
    | AChoice i :: rest =>
        match choices !! i with
        | Some (_, v) => Some (v, rest)
        | None => None
        end
    | _ => None
    end.

(** The checkbox renderer: the selection starts as the indices of the
    choices that are in [default]; Space on entry [k] removes [k] from
    the selection or appends it; Enter returns the selected choices in
    selection order.  The cursor never leaves the list. *)
Definition checkbox_toggle (n : nat) (sel : list nat) (k : nat) : list nat :=
  if decide (n <= k)%nat then sel
  else if decide (k ∈ sel) then py_remove k sel else sel ++ [k].

Definition checkbox_initial (choices default : list ElkaDay) : list nat :=
  List.filter (fun k => match choices !! k with
                        | Some c => bool_decide (c ∈ default)
                        | None => false
                        end) (seq 0 (length choices)).

Definition checkbox_result (choices default : list ElkaDay) (toggles : list nat)
  : list ElkaDay :=
  let sel := foldl (checkbox_toggle (length choices))
                   (checkbox_initial choices default) toggles in
  omap (fun k => choices !! k) sel.

(** [inquirer.checkbox(message, choices=..., default=...)]. *)
Definition checkbox (choices default : list ElkaDay) : M (list ElkaDay) :=
  fun inp =>
    match inp with
    | AChecks toggles :: rest =>
        Some (checkbox_result choices default toggles, rest)
    | _ => None
    end.

(* ------------------------------------------------------------------ *)
(** ** Formatting of times and numbers *)

Definition digit_char (n : Z) : ascii := ascii_of_nat (Z.to_nat (48 + n)).

(** The decimal digits of [n >= 0], zero-padded to [width]. *)
Fixpoint zfill (width : nat) (n : Z) : list ascii :=
  match width with
  | O => []
  | S w => zfill w (n / 10) ++ [digit_char (n mod 10)]
  end.

Definition zfill_str (width : nat) (n : Z) : string :=
  String.string_of_list_ascii (zfill width n).

(** [t.strftime(DISPLAY_TIME_FMT)] with [DISPLAY_TIME_FMT = '%H:%M']. *)
Definition strftime_HM (t : Time) : string :=
  zfill_str 2 (hour t) +:+ ":" +:+ zfill_str 2 (minute t).

(** [(dt.datetime.combine(dt.date(1, 1, 1), t) + dt.timedelta(minutes=k)).time()]
    for [k >= 0]: the time of day wraps around midnight. *)
Definition add_minutes (t : Time) (k : Z) : Time :=
  let total := (60 * hour t + minute t + k) mod 1440 in
  mk_time (total / 60) (total mod 60).

(* ------------------------------------------------------------------ *)
(** ** [create_course] *)

Definition WEEKDAY_CHOICES : list (string * Z) :=
  [("Monday", 1); ("Tuesday", 2); ("Wednesday", 3); ("Thursday", 4);
   ("Friday", 5)].

Definition PARITY_CHOICES : list (string * list string) :=
  [("Weekly", ["N"; "P"; "N/P"]);
   ("Even weeks", ["P"]);
   ("Odd weeks", ["N"]);
   ("Custom", [])].

(** [days_all = [d for d in semester if d.weekday == weekday]]. *)
Definition days_all (semester : list ElkaDay) (wd : Z) : list ElkaDay :=
  List.filter (fun d => weekday d =? wd) semester.

(** [days_default = [d for d in days_all if d.parity in parities]]:
    membership in the tuple [parities] is string equality with one of
    its entries. *)
Definition days_default (all : list ElkaDay) (parities : list string)
  : list ElkaDay :=
  List.filter (fun d => bool_decide (parity d ∈ parities)) all.

(** [dt.datetime.strptime(s, DISPLAY_TIME_FMT).time()] after the prompt
    has validated [s]; the [None] case is unreachable there. *)
Definition parsed_time (s : string) : M Time :=
  fun inp => match parse_time s with
             | Some t => Some (t, inp)
             | None => None
             end.

(** The validator of the start time prompt: [strptime] returns a
    (truthy) [datetime] or raises. *)
Definition validate_start (v : string) : bool :=
  match parse_time v with Some _ => true | None => false end.

(** The validator of the end time prompt:
    [strptime(v, DISPLAY_TIME_FMT).time() > start_time]. *)
Definition validate_end (start_time : Time) (v : string) : bool :=
  match parse_time v with
  | Some t => time_gtb t start_time
  | None => false
  end.

Definition accept_any (_ : string) : bool := true.

Definition create_course (semester : list ElkaDay) : M ElkaCourse :=
  name ← text None accept_any;
  description ← text None accept_any;
  location ← text None accept_any;
  wd ← list_input WEEKDAY_CHOICES;
  start_time_str ← text None validate_start;
  start_time ← parsed_time start_time_str;
  let end_time_default := add_minutes start_time 105 in
  end_time_str ← text (Some (strftime_HM end_time_default))
                      (validate_end start_time);
  end_time ← parsed_time end_time_str;
  parities ← list_input PARITY_CHOICES;
  let all := days_all semester wd in
  let dflt := days_default all parities in
  days_selected ← checkbox all dflt;
  mret (mk_ElkaCourse name description location start_time end_time
                      days_selected).

(* ------------------------------------------------------------------ *)
(** ** Exceptions *)

Inductive py_error :=
  | IndexError        (** [days[0]] of an empty list *)
  | ValueError        (** an [ics] [Event] whose end is before its begin *)
  | UnpicklingError.  (** [pickle.load] of an empty or damaged file *)

Inductive exc (A : Type) := Ok (a : A) | Raise (e : py_error).
Arguments Ok {A} a.
Arguments Raise {A} e.

(* ------------------------------------------------------------------ *)
(** ** The pickle file

    [pickle.dump] writes the object graph of the course list as a
    sequence of opcodes; [pickle.load] rebuilds it.  Named tuples,
    dates and times are rebuilt by calling their class on the tuple of
    their fields ([GLOBAL], [MARK] ... [TUPLE], [REDUCE]); a list is
    [EMPTY_LIST], [MARK] ... [APPENDS]; the stream ends with [STOP]. *)

Inductive opcode :=
  | GLOBAL (qualname : string)
  | MARK
  | TUPLE
  | REDUCE
  | EMPTY_LIST
  | APPENDS
  | UNICODE (s : string)
  | INT (z : Z)
  | STOP.

#[global] Instance opcode_eq_dec : EqDecision opcode.
Proof. solve_decision. Defined.

Definition reduce_ops (qualname : string) (fields : list opcode) : list opcode :=
  [GLOBAL qualname; MARK] ++ fields ++ [TUPLE; REDUCE].

Definition dump_date (d : Date) : list opcode :=
  reduce_ops "datetime date" [INT (year d); INT (month d); INT (day d)].

Definition dump_time (t : Time) : list opcode :=
  reduce_ops "datetime time" [INT (hour t); INT (minute t)].

Definition dump_day (d : ElkaDay) : list opcode :=
  reduce_ops "__main__ ElkaDay"
    (dump_date (date d) ++ [UNICODE (parity d); INT (weekday d)]).

Definition dump_list {A} (dump : A -> list opcode) (xs : list A) : list opcode :=
  [EMPTY_LIST; MARK] ++ mjoin (map dump xs) ++ [APPENDS].

Definition dump_course (c : ElkaCourse) : list opcode :=
  reduce_ops "__main__ ElkaCourse"
    ([UNICODE (name c); UNICODE (description c); UNICODE (location c)]
     ++ dump_time (start_time c) ++ dump_time (end_time c)
     ++ dump_list dump_day (days c)).

(** [pickle.dumps(courses)]. *)
Definition pickle_dumps (courses : list ElkaCourse) : list opcode :=
  dump_list dump_course courses ++ [STOP].

(** The unpickler, on the objects this script stores: each reader takes
    the opcodes it understands off the front of the stream. *)
Definition Reader (A : Type) : Type := list opcode -> option (A * list opcode).

Definition read_int : Reader Z :=
  fun ops => match ops with INT z :: r => Some (z, r) | _ => None end.

Definition read_unicode : Reader string :=
  fun ops => match ops with UNICODE s :: r => Some (s, r) | _ => None end.

Definition read_op (o : opcode) : Reader unit :=
  fun ops => match ops with
             | o' :: r => if decide (o = o') then Some (tt, r) else None
             | [] => None
             end.

Definition read_bind {A B} (p : Reader A) (f : A -> Reader B) : Reader B :=
  fun ops => match p ops with Some (a, r) => f a r | None => None end.

Definition read_ret {A} (a : A) : Reader A := fun ops => Some (a, ops).

Definition read_reduce {A} (qualname : string) (fields : Reader A) : Reader A :=
  read_bind (read_op (GLOBAL qualname)) (fun _ =>
  read_bind (read_op MARK) (fun _ =>
  read_bind fields (fun a =>
  read_bind (read_op TUPLE) (fun _ =>
  read_bind (read_op REDUCE) (fun _ => read_ret a))))).

Definition read_date : Reader Date :=
  read_reduce "datetime date"
    (read_bind read_int (fun y => read_bind read_int (fun m =>
     read_bind read_int (fun d => read_ret (mk_date y m d))))).

Definition read_time : Reader Time :=
  read_reduce "datetime time"
    (read_bind read_int (fun h => read_bind read_int (fun m =>
     read_ret (mk_time h m)))).

Definition read_day : Reader ElkaDay :=
  read_reduce "__main__ ElkaDay"
    (read_bind read_date (fun d => read_bind read_unicode (fun p =>
     read_bind read_int (fun w => read_ret (mk_ElkaDay d p w))))).

(** The items of a list up to [APPENDS]; [fuel] bounds their number. *)
Fixpoint read_items {A} (fuel : nat) (item : Reader A) : Reader (list A) :=
  fun ops =>
    match ops with
    | APPENDS :: r => Some ([], r)
    | _ =>
        match fuel with
        | O => None
        | S f =>
            match item ops with
            | Some (x, r) =>
                match read_items f item r with
                | Some (xs, r') => Some (x :: xs, r')
                | None => None
                end
            | None => None
            end
        end
    end.

Definition read_list {A} (item : Reader A) : Reader (list A) :=
  fun ops =>
    match ops with
    | EMPTY_LIST :: MARK :: r => read_items (length r) item r
    | _ => None
    end.

Definition read_course : Reader ElkaCourse :=
  read_reduce "__main__ ElkaCourse"
    (read_bind read_unicode (fun n => read_bind read_unicode (fun de =>
     read_bind read_unicode (fun lo => read_bind read_time (fun st =>
     read_bind read_time (fun et => read_bind (read_list read_day) (fun ds =>
     read_ret (mk_ElkaCourse n de lo st et ds)))))))).

(** [pickle.load(f)]: reads up to [STOP]; [None] is the exception
    ([EOFError] on an empty file, [UnpicklingError] otherwise). *)
Definition pickle_load (ops : list opcode) : option (list ElkaCourse) :=
  match read_list read_course ops with
  | Some (cs, STOP :: _) => Some cs
  | _ => None
  end.

(* ------------------------------------------------------------------ *)
(** ** The files of a session *)

(** [datetime.combine(date, time)] for a local (naive) instant. *)
Record DateTime := mk_datetime { dt_date : Date; dt_time : Time }.

(** [ContentLine(name, value=...)] of [ics]. *)
Record ContentLine := mk_ContentLine { cl_name : string; cl_value : string }.

(** An [ics] [Event]: [uid] is the identifier [ics] draws for each new
    event (a fresh one per event); begin and end are local instants. *)
Record Event := mk_Event {
  ev_uid : nat;
  ev_name : string;
  ev_description : string;
  ev_location : string;
  ev_begin : DateTime;
  ev_end : DateTime;
  ev_extra : list ContentLine
}.

(** The files: the pickle of each calendar ([<cal_name>.pickle]) and the
    events of each exported document ([<cal_name>.ics]). *)
Record World := mk_World {
  pickles : gmap string (list opcode);
  ics_files : gmap string (list Event)
}.

Definition pickle_path (cal_name : string) : string := cal_name +:+ ".pickle".

(** Lines 162-165 of [main]: [pickle.load(open(f'{cal_name}.pickle', 'rb'))],
    with [FileNotFoundError] caught as the empty list. *)
Definition load_courses (w : World) (cal_name : string) : exc (list ElkaCourse) :=
  match pickles w !! pickle_path cal_name with
  | None => Ok []
  | Some ops =>
      match pickle_load ops with
      | Some cs => Ok cs
      | None => Raise UnpicklingError
      end
  end.

Definition set_pickle (w : World) (path : string) (ops : list opcode) : World :=
  mk_World (<[path := ops]> (pickles w)) (ics_files w).

(** Line 179 of [main]: [pickle.dump(courses, open(f'{cal_name}.pickle', 'wb'))]. *)
Definition save_courses (w : World) (cal_name : string) (courses : list ElkaCourse)
  : World :=
  set_pickle w (pickle_path cal_name) (pickle_dumps courses).

(** The states the file goes through during that line: [open(_, 'wb')]
    truncates it, then the pickler's writes extend it until the whole
    stream is on disk. *)
Definition save_states (w : World) (cal_name : string) (courses : list ElkaCourse)
  : list World :=
  map (fun n => set_pickle w (pickle_path cal_name) (take n (pickle_dumps courses)))
      (seq 0 (S (length (pickle_dumps courses)))).

(* ------------------------------------------------------------------ *)
(** ** [export] *)

Section ExportModel.

(** The local time zone: [arrow.get(naive, 'local')] read in UTC. *)
Variable utc_of_local : DateTime -> DateTime.

(** [ics.utils.arrow_to_iso]: the UTC instant as [YYYYMMDDTHHMMSSZ]. *)
Definition arrow_to_iso (t : DateTime) : string :=
  let u := utc_of_local t in
  zfill_str 4 (year (dt_date u)) +:+ zfill_str 2 (month (dt_date u))
  +:+ zfill_str 2 (day (dt_date u)) +:+ "T"
  +:+ zfill_str 2 (hour (dt_time u)) +:+ zfill_str 2 (minute (dt_time u))
  +:+ "00Z".

Definition datetime_ltb (a b : DateTime) : bool :=
  (toordinal (dt_date a) <? toordinal (dt_date b))
  || ((toordinal (dt_date a) =? toordinal (dt_date b))
      && time_gtb (dt_time b) (dt_time a)).

(** The body of the loop of [export] for one course: the [Event] with its
    [RDATE] line.  [course.days[0]] raises on an empty list, and [ics]
    refuses an end before the begin. *)
Definition course_event (uid : nat) (course : ElkaCourse) : exc Event :=
  match days course with
  | [] => Raise IndexError
  | d0 :: _ =>
      let b := mk_datetime (date d0) (start_time course) in
      let e := mk_datetime (date d0) (end_time course) in
      if datetime_ltb e b then Raise ValueError
      else
        let recurrences :=
          map (fun d => mk_datetime (date d) (start_time course)) (days course) in
        Ok (mk_Event uid (name course) (description course) (location course) b e
              [mk_ContentLine "RDATE"
                 (String.concat "," (map arrow_to_iso recurrences))])
  end.

(** [calendar.events.add(event)]: the events form a set, in which
    events are equal when their uids are. *)
Definition add_event (e : Event) (events : list Event) : list Event :=
  if decide (ev_uid e ∈ map ev_uid events) then events else events ++ [e].

(** The loop of [export]; [uid] is the next fresh identifier. *)
Fixpoint export_events (uid : nat) (courses : list ElkaCourse) (events : list Event)
  : exc (list Event) :=
  match courses with
  | [] => Ok events
  | c :: cs =>
      match course_event uid c with
      | Raise e => Raise e
      | Ok ev => export_events (S uid) cs (add_event ev events)
      end
  end.

(** [export(cal_name, courses)]: the events of the written document. *)
Definition export (uid0 : nat) (cal_name : string) (w : World)
  (courses : list ElkaCourse) : exc World :=
  match export_events uid0 courses [] with
  | Raise e => Raise e
  | Ok events => Ok (mk_World (pickles w) (<[cal_name +:+ ".ics" := events]> (ics_files w)))
  end.

End ExportModel.

(* ------------------------------------------------------------------ *)
(** ** [ElkaCourse.__str__] and the menu loop of [main] *)

(** [date.strftime('%a')] in the C locale. *)
Definition strftime_a (d : Date) : string :=
  nth (Z.to_nat (isoweekday d - 1)) ["Mon"; "Tue"; "Wed"; "Thu"; "Fri"; "Sat"; "Sun"] "".

(** [ElkaCourse.__str__]: [self.days[0]] raises on an empty list. *)
Definition course_str (c : ElkaCourse) : exc string :=
  match days c with
  | [] => Raise IndexError
  | d0 :: _ =>
      Ok (name c
          +:+ (if String.eqb (description c) "" then ""
               else "(" +:+ description c +:+ ")")
          +:+ " on " +:+ strftime_a (date d0)
          +:+ " at " +:+ strftime_HM (start_time c)
          +:+ " in " +:+ location c
          +:+ " (" +:+ pretty (N.of_nat (length (days c))) +:+ " classes)")
  end.

(** The actions of the menu: each [MenuOption] of [main]. *)
Inductive MenuAction :=
  | AddCourse
  | RemoveCourse (c : ElkaCourse)
  | ExportIcs
  | SaveAndExit.

(** The titles of the [Remove] entries, built with [str(course)]. *)
Fixpoint remove_options (courses : list ElkaCourse)
  : exc (list (string * MenuAction)) :=
  match courses with
  | [] => Ok []
  | c :: cs =>
      match course_str c with
      | Raise e => Raise e
      | Ok s =>
          match remove_options cs with
          | Raise e => Raise e
          | Ok opts => Ok (("Remove " +:+ s, RemoveCourse c) :: opts)
          end
      end
  end.

(** How one pass of the [while True] loop ends. *)
Inductive Step :=
  | Continue (w : World)   (** the pickle is written, the loop goes on *)
  | Exited                 (** [exit()] *)
  | Crashed (e : py_error). (** an uncaught exception *)

(** [remove_course(courses, course)]. *)
Definition remove_course (courses : list ElkaCourse) (course : ElkaCourse)
  : M (list ElkaCourse) :=
  list_input [("Yes", true); ("No", false)] ≫= fun (confirm : bool) =>
  mret (if confirm then py_remove course courses else courses).

(** One pass of the loop of [main] (lines 162-179). *)
Definition main_step (utc_of_local : DateTime -> DateTime) (uid0 : nat)
  (cal_name : string) (semester : list ElkaDay) (w : World) : M Step :=
  match load_courses w cal_name with
  | Raise e => mret (Crashed e)
  | Ok courses =>
      match remove_options courses with
      | Raise e => mret (Crashed e)
      | Ok removes =>
          let main_menu :=
            [("Add course", AddCourse)] ++ removes
            ++ [("Export to .ics", ExportIcs); ("Save and exit", SaveAndExit)] in
          choice ← list_input main_menu;
          match choice with
          | AddCourse =>
              c ← create_course semester;
              mret (Continue (save_courses w cal_name (courses ++ [c])))
          | RemoveCourse c =>
              courses' ← remove_course courses c;
              mret (Continue (save_courses w cal_name courses'))
          | ExportIcs =>
              match export utc_of_local uid0 cal_name w courses with
              | Raise e => mret (Crashed e)
              | Ok w' => mret (Continue (save_courses w' cal_name courses))
              end
          | SaveAndExit => mret Exited
          end
      end
  end.

(* ------------------------------------------------------------------ *)
(** ** Sample inputs *)

(** The tags of the [Weekly] entry of [PARITY_CHOICES]. *)
Definition weekly_tags : list string :=
  match PARITY_CHOICES with (_, tags) :: _ => tags | [] => [] end.

(** A term calendar with one Monday that carries no parity tag. *)
Definition untagged_monday : ElkaDay :=
  mk_ElkaDay (mk_date 2022 3 14) "" 1.

(** Two courses and a world with no files. *)
Definition course_a : ElkaCourse :=
  mk_ElkaCourse "Analysis" "" "1.01" (mk_time 8 0) (mk_time 9 45)
    [mk_ElkaDay (mk_date 2022 2 28) "P" 1; mk_ElkaDay (mk_date 2022 3 14) "P" 1].

Definition course_b : ElkaCourse :=
  mk_ElkaCourse "Physics" "lab" "2.02" (mk_time 10 15) (mk_time 12 0)
    [mk_ElkaDay (mk_date 2022 3 1) "N" 2].

Definition empty_world : World := mk_World ∅ ∅.

(** [course_a] with its dates removed. *)
Definition course_no_days : ElkaCourse :=
  mk_ElkaCourse "Analysis" "" "1.01" (mk_time 8 0) (mk_time 9 45) [].

(** A term calendar: two Mondays tagged P and N, a Tuesday without tag. *)
Definition sample_semester : list ElkaDay :=
  [mk_ElkaDay (mk_date 2022 2 28) "P" 1; mk_ElkaDay (mk_date 2022 3 1) "" 2;
   mk_ElkaDay (mk_date 2022 3 7) "N" 1].

(** Answers that add a course on Mondays, even weeks, 08:00 with the
    default end time, and untick the one pre-selected date. *)
Definition add_with_no_dates : list answer :=
  [AChoice 0; AText "Analysis"; AText ""; AText "1.01"; AChoice 0;
   AText "08:00"; AText ""; AChoice 1; AChecks [0%nat]].

(** The same course, with an end time 07:30 first (refused), then 09:45,
    and the default dates kept. *)
Definition add_with_bad_end : list answer :=
  [AChoice 0; AText "Analysis"; AText ""; AText "1.01"; AChoice 0;
   AText "08:00"; AText "07:30"; AText "09:45"; AChoice 1; AChecks []].

(** The local zone used in the examples: UTC. *)
Definition utc_zone (t : DateTime) : DateTime := t.

(* ------------------------------------------------------------------ *)
(** ** What the properties speak of *)

(** What [load_semester] makes of one row: the date parses, the parity
    field is kept as it is (an empty field stays the empty string, the
    script's "no tag"), and the weekday is [int(weekday_str)] or, for an
    empty field, the ISO weekday of the date. *)
Definition row_gives (row : list string) (d : ElkaDay) : Prop :=
  exists date_str parity_str weekday_str,
    row = [date_str; parity_str; weekday_str]
    /\ parse_date date_str = Some (date d)
    /\ parity d = parity_str
    /\ (if String.eqb weekday_str "" then weekday d = isoweekday (date d)
        else py_int weekday_str = Some (weekday d)).

(** The event the spec describes for a course: begin and end on the first
    date, the course's texts, and one [RDATE] line listing every date at
    the start time. *)
Definition event_of_course (utc_of_local : DateTime -> DateTime)
  (c : ElkaCourse) (e : Event) : Prop :=
  exists d0 rest,
    days c = d0 :: rest
    /\ ev_begin e = mk_datetime (date d0) (start_time c)
    /\ ev_end e = mk_datetime (date d0) (end_time c)
    /\ ev_name e = name c
    /\ ev_description e = description c
    /\ ev_location e = location c
    /\ ev_extra e =
       [mk_ContentLine "RDATE"
          (String.concat ","
             (map (fun d => arrow_to_iso utc_of_local
                              (mk_datetime (date d) (start_time c)))
                  (days c)))].

(* ================================================================== *)
(** * Properties *)

(* ------------------------------------------------------------------ *)
(** ** Selecting the dates of a course *)

Lemma days_all_member (T : list ElkaDay) (w : Z) (d : ElkaDay) :
  d ∈ days_all T w <-> d ∈ T /\ weekday d = w.
Proof.
  unfold days_all. rewrite !list_elem_of_In, filter_In. by rewrite Z.eqb_eq.
Qed.

Lemma days_default_member (all : list ElkaDay) (tags : list string) (d : ElkaDay) :
  d ∈ days_default all tags <-> d ∈ all /\ parity d ∈ tags.
Proof.
  unfold days_default.
  by rewrite list_elem_of_In, filter_In, bool_decide_eq_true, <- list_elem_of_In.
Qed.

Lemma filter_sublist {A} (f : A -> bool) (l : list A) :
  sublist (List.filter f l) l.
Proof.
  induction l as [|x l IH]; simpl; [constructor|].
  destruct (f x); by constructor.
Qed.

Lemma checkbox_result_incl (choices default : list ElkaDay) (toggles : list nat)
  (d : ElkaDay) :
  d ∈ checkbox_result choices default toggles -> d ∈ choices.
Proof.
  unfold checkbox_result. intros Hd.
  apply list_elem_of_omap in Hd as (k & _ & Hk).
  by eapply list_elem_of_lookup_2.
Qed.

Lemma days_all_count (T : list ElkaDay) (w : Z) (d : ElkaDay) :
  count_occ ElkaDay_eq_dec (days_all T w) d
  = if weekday d =? w then count_occ ElkaDay_eq_dec T d else 0%nat.
Proof.
  unfold days_all. induction T as [|a T IH]; simpl.
  - by destruct (weekday d =? w).
  - destruct (weekday a =? w) eqn:Ea; simpl;
      destruct (ElkaDay_eq_dec a d) as [->|Hne]; rewrite ?IH;
      destruct (weekday d =? w) eqn:Ed; congruence.
Qed.

(** C1: for every term calendar [T] and weekday [w], the choices offered
    by the checkbox of [create_course] ([days_all]) are exactly the days
    of [T] whose weekday is [w], in calendar order (a subsequence of [T]
    that keeps every occurrence of each such day and nothing else); the
    default selection is a subset of the offered choices, and so is
    whatever the user confirms. *)
Theorem offered_set_exact (T : list ElkaDay) (w : Z) (parities : list string) :
  sublist (days_all T w) T
  /\ (forall d, count_occ ElkaDay_eq_dec (days_all T w) d
                = if weekday d =? w then count_occ ElkaDay_eq_dec T d else 0%nat)
  /\ (forall d, d ∈ days_all T w <-> d ∈ T /\ weekday d = w)
  /\ (forall d, d ∈ days_default (days_all T w) parities -> d ∈ days_all T w)
  /\ (forall toggles d,
        d ∈ checkbox_result (days_all T w) (days_default (days_all T w) parities)
                            toggles
        -> d ∈ days_all T w).
Proof.
  split; [apply filter_sublist|].
  split; [intros d; apply days_all_count|].
  split; [intros d; apply days_all_member|].
  split.
  - intros d Hd. by apply days_default_member in Hd as [? _].
  - intros toggles d. apply checkbox_result_incl.
Qed.

(** C2 (counterexample): under the [Weekly] frequency, the Monday
    2022-03-14 with an empty parity tag matches the chosen weekday but is
    not in the default selection. *)
Lemma weekly_default_skips_untagged :
  ~ (forall d, d ∈ [untagged_monday] -> weekday d = 1 ->
       d ∈ days_default (days_all [untagged_monday] 1) weekly_tags).
Proof.
  intros H. specialize (H untagged_monday ltac:(set_solver) eq_refl).
  apply days_default_member in H as [_ Hp].
  vm_compute in Hp. set_solver.
Qed.

(** C2 (as the code does it): a day is in the default selection exactly
    when it is in the calendar, has the chosen weekday and its parity tag
    is one of the tags of the chosen frequency; [Weekly] is the tag set
    {N, P, N/P} (so a day tagged with the empty string is not in it) and
    [Custom] has no tags, hence an empty default. *)
Theorem default_selection_spec :
  (forall (T : list ElkaDay) (w : Z) (tags : list string) (d : ElkaDay),
     d ∈ days_default (days_all T w) tags
     <-> d ∈ T /\ weekday d = w /\ parity d ∈ tags)
  /\ ("Weekly", ["N"; "P"; "N/P"]) ∈ PARITY_CHOICES
  /\ ("Custom", []) ∈ PARITY_CHOICES
  /\ (forall (T : list ElkaDay) (w : Z), days_default (days_all T w) [] = []).
Proof.
  split; [|split; [|split]].
  - intros T w tags d.
    rewrite days_default_member, days_all_member. tauto.
  - unfold PARITY_CHOICES. set_solver.
  - unfold PARITY_CHOICES. set_solver.
  - intros T w. unfold days_default.
    induction (days_all T w) as [|a l IH]; simpl; [done|].
    exact IH.
Qed.

(* ------------------------------------------------------------------ *)
(** ** Reading the term calendar *)

Lemma load_row_spec (row : list string) (d : ElkaDay) :
  load_row row = Some d <-> row_gives row d.
Proof.
  unfold row_gives. split.
  - destruct row as [|ds [|ps [|ws [|]]]]; simpl; try discriminate.
    destruct (parse_date ds) as [dd|] eqn:Hd; simpl; [|discriminate].
    destruct (String.eqb ws "") eqn:Hw; simpl.
    + intros [= <-]. exists ds, ps, ws. simpl. rewrite Hw. done.
    + destruct (py_int ws) as [n|] eqn:Hn; simpl; [|discriminate].
      intros [= <-]. exists ds, ps, ws. simpl. rewrite Hw. done.
  - intros (ds & ps & ws & -> & Hd & Hp & Hw). simpl. rewrite Hd. simpl.
    destruct d as [dd p wd]; simpl in *; subst.
    destruct (String.eqb ws "") eqn:E; simpl.
    + by rewrite Hw.
    + by rewrite Hw.
Qed.

(** C8: [load_semester] succeeds on the rows of the CSV file exactly when
    every row has three fields, a parsable date and, when the weekday
    field is not empty, an integer there; the day read from a row keeps
    the row's parity field verbatim (an empty field gives the empty tag,
    the script's null tag), and its weekday is the ISO weekday of the
    date when the weekday field is empty (such a row never fails because
    of it) and the integer of the field otherwise.  Days come in row
    order. *)
Theorem load_semester_fields (rows : list (list string)) (sem : list ElkaDay) :
  load_semester rows = Some sem <-> Forall2 row_gives rows sem.
Proof.
  unfold load_semester. rewrite mapM_Some.
  split; intros H; eapply Forall2_impl; try exact H;
    intros row d; apply load_row_spec.
Qed.

(** The record of the spec's scenario: no weekday field needed. *)
Example load_semester_scenario :
  load_semester [["2022-02-28"; ""; ""]; ["2022-03-07"; "N"; "1"]]
  = Some [mk_ElkaDay (mk_date 2022 2 28) "" 1; mk_ElkaDay (mk_date 2022 3 7) "N" 1].
Proof. reflexivity. Qed.

(* ------------------------------------------------------------------ *)
(** ** The pickle file *)

Lemma read_op_same (o : opcode) (r : list opcode) : read_op o (o :: r) = Some (tt, r).
Proof. simpl. by rewrite decide_True. Qed.

Lemma read_reduce_ops {A} (q : string) (fields : Reader A) (f : list opcode) (a : A) :
  (forall r, fields (f ++ r) = Some (a, r)) ->
  forall r, read_reduce q fields (reduce_ops q f ++ r) = Some (a, r).
Proof.
  intros Hf r. unfold read_reduce, reduce_ops, read_bind.
  rewrite <- app_assoc. simpl app.
  rewrite read_op_same, read_op_same, <- app_assoc, Hf.
  simpl app. by rewrite read_op_same, read_op_same.
Qed.

Lemma read_date_dump (d : Date) (r : list opcode) :
  read_date (dump_date d ++ r) = Some (d, r).
Proof. destruct d. by apply read_reduce_ops. Qed.

Lemma read_time_dump (t : Time) (r : list opcode) :
  read_time (dump_time t ++ r) = Some (t, r).
Proof. destruct t. by apply read_reduce_ops. Qed.

Lemma read_day_dump (d : ElkaDay) (r : list opcode) :
  read_day (dump_day d ++ r) = Some (d, r).
Proof.
  destruct d as [dd p wd]. apply read_reduce_ops. intros r'.
  unfold read_bind. rewrite <- app_assoc, read_date_dump. done.
Qed.

Lemma read_items_dump {A} (dump : A -> list opcode) (item : Reader A) :
  (forall x r, item (dump x ++ r) = Some (x, r)) ->
  (forall x, exists o os, dump x = o :: os /\ o <> APPENDS) ->
  forall xs fuel r, (length xs <= fuel)%nat ->
  read_items fuel item (mjoin (map dump xs) ++ APPENDS :: r) = Some (xs, r).
Proof.
  intros Hitem Hne xs. induction xs as [|x xs IH]; intros fuel r Hfuel; simpl.
  - by destruct fuel.
  - destruct fuel as [|fuel]; [simpl in Hfuel; lia|].
    destruct (Hne x) as (o & os & Hx & Ho).
    assert (Hstep : forall l, read_items (S fuel) item (o :: l)
      = match item (o :: l) with
        | Some (y, r') =>
            match read_items fuel item r' with
            | Some (ys, r'') => Some (y :: ys, r'')
            | None => None
            end
        | None => None
        end) by (intros l; destruct o; congruence || reflexivity).
    rewrite <- app_assoc, Hx. simpl app.
    rewrite Hstep, app_comm_cons, <- Hx, Hitem, IH by (simpl in Hfuel; lia).
    done.
Qed.

Lemma length_mjoin_map_ge {A} (dump : A -> list opcode) (xs : list A) :
  (forall x, exists o os, dump x = o :: os /\ o <> APPENDS) ->
  (length xs <= length (mjoin (map dump xs)))%nat.
Proof.
  intros Hne. induction xs as [|x xs IH]; simpl; [lia|].
  rewrite length_app. destruct (Hne x) as (o & os & -> & _). simpl. lia.
Qed.

Lemma read_list_dump {A} (dump : A -> list opcode) (item : Reader A) :
  (forall x r, item (dump x ++ r) = Some (x, r)) ->
  (forall x, exists o os, dump x = o :: os /\ o <> APPENDS) ->
  forall xs r, read_list item (dump_list dump xs ++ r) = Some (xs, r).
Proof.
  intros Hitem Hne xs r. unfold dump_list, read_list.
  rewrite <- app_assoc. simpl. rewrite <- app_assoc. simpl.
  apply read_items_dump; [done|done|].
  rewrite length_app. pose proof (length_mjoin_map_ge dump xs Hne). lia.
Qed.

Lemma read_course_dump (c : ElkaCourse) (r : list opcode) :
  read_course (dump_course c ++ r) = Some (c, r).
Proof.
  destruct c as [n de lo st et ds]. apply read_reduce_ops. intros r'.
  unfold read_bind. rewrite <- !app_assoc.
  cbn -[read_time read_list dump_time dump_list].
  rewrite read_time_dump, read_time_dump.
  rewrite (read_list_dump dump_day read_day); [done| |].
  - intros; apply read_day_dump.
  - intros x. by eexists _, _.
Qed.

Lemma pickle_load_dumps (cs : list ElkaCourse) : pickle_load (pickle_dumps cs) = Some cs.
Proof.
  unfold pickle_load, pickle_dumps.
  rewrite (read_list_dump dump_course read_course); [done| |].
  - intros; apply read_course_dump.
  - intros x. by eexists _, _.
Qed.

Lemma load_save (w : World) (cal_name : string) (cs : list ElkaCourse) :
  load_courses (save_courses w cal_name cs) cal_name = Ok cs.
Proof.
  unfold load_courses, save_courses, set_pickle. simpl.
  rewrite lookup_insert_eq, pickle_load_dumps. done.
Qed.

(** C3: saving any course list under a calendar name and loading that
    name gives back the same list, field for field (dates, times and
    parity tags, the empty tag included); the list may even be empty. *)
Theorem store_round_trip (w : World) (cal_name : string) (cs : list ElkaCourse) :
  load_courses (save_courses w cal_name cs) cal_name = Ok cs.
Proof. apply load_save. Qed.

(** C6: when there is no pickle file for the calendar name, loading
    gives the empty course list, not an exception. *)
Theorem load_without_store (w : World) (cal_name : string) :
  pickles w !! pickle_path cal_name = None -> load_courses w cal_name = Ok [].
Proof. intros H. unfold load_courses. by rewrite H. Qed.

Lemma load_without_store_witness :
  pickles empty_world !! pickle_path "sessionA" = None
  /\ load_courses empty_world "sessionA" = Ok [].
Proof.
  split; [reflexivity|]. apply (load_without_store empty_world "sessionA").
  reflexivity.
Defined.

(** C9 (counterexample): saving is not atomic.  With [[course_a]] stored
    under "cal", saving [[course_b]] first truncates the file; a run
    stopped there leaves a file that loads neither list. *)
Lemma save_not_atomic :
  ~ (forall s, s ∈ save_states (save_courses empty_world "cal" [course_a]) "cal" [course_b]
       -> load_courses s "cal" = Ok [course_a] \/ load_courses s "cal" = Ok [course_b]).
Proof.
  intros H.
  destruct (H (set_pickle (save_courses empty_world "cal" [course_a])
                          (pickle_path "cal") [])) as [E|E].
  - unfold save_states. simpl seq. simpl map.
    apply list_elem_of_here.
  - vm_compute in E. discriminate.
  - vm_compute in E. discriminate.
Qed.

(** C9 (as the code does it): saving overwrites the whole pickle file of
    the calendar and nothing else.  Once it completes the file holds
    exactly the new list.  It is not atomic: [open(_, 'wb')] first
    empties the file, which [load] then rejects, and every intermediate
    state holds a prefix of the new pickle. *)
Theorem save_overwrites_whole_file (w : World) (cal_name : string)
  (cs : list ElkaCourse) :
  last (save_states w cal_name cs) = Some (save_courses w cal_name cs)
  /\ load_courses (save_courses w cal_name cs) cal_name = Ok cs
  /\ head (save_states w cal_name cs) = Some (set_pickle w (pickle_path cal_name) [])
  /\ load_courses (set_pickle w (pickle_path cal_name) []) cal_name
     = Raise UnpicklingError
  /\ (forall s, s ∈ save_states w cal_name cs ->
        (exists n, pickles s !! pickle_path cal_name
                   = Some (take n (pickle_dumps cs)))
        /\ ics_files s = ics_files w
        /\ (forall p, p <> pickle_path cal_name -> pickles s !! p = pickles w !! p)).
Proof.
  split; [|split; [apply load_save|split; [|split]]].
  - unfold save_states. rewrite seq_S, List.map_app. cbn [map]. rewrite last_snoc.
    rewrite Nat.add_0_l, take_ge by lia. done.
  - unfold save_states. reflexivity.
  - unfold load_courses, set_pickle. simpl. by rewrite lookup_insert_eq.
  - intros s Hs. unfold save_states in Hs.
    apply list_elem_of_fmap in Hs as (n & -> & _).
    unfold set_pickle. simpl. split; [|split; [done|]].
    + exists n. by rewrite lookup_insert_eq.
    + intros p Hp. by rewrite lookup_insert_ne by congruence.
Qed.

(* ------------------------------------------------------------------ *)
(** ** [export] *)

Section ExportProofs.

Variable utc_of_local : DateTime -> DateTime.

Lemma course_event_ok (uid : nat) (c : ElkaCourse) :
  days c <> [] -> time_gtb (start_time c) (end_time c) = false ->
  exists e, course_event utc_of_local uid c = Ok e
            /\ ev_uid e = uid /\ event_of_course utc_of_local c e.
Proof.
  intros Hdays Hwin. unfold course_event.
  destruct (days c) as [|d0 rest] eqn:Ed; [done|].
  unfold datetime_ltb. simpl. rewrite Z.ltb_irrefl, Z.eqb_refl, Hwin. simpl.
  eexists; split; [reflexivity|]. split; [done|].
  exists d0, rest. rewrite Ed. repeat split.
  simpl. by rewrite List.map_map.
Qed.

Lemma export_events_ok (courses : list ElkaCourse) :
  Forall (fun c => days c <> [] /\ time_gtb (start_time c) (end_time c) = false)
         courses ->
  forall uid events, (forall e, e ∈ events -> (ev_uid e < uid)%nat) ->
  exists added,
    export_events utc_of_local uid courses events = Ok (events ++ added)
    /\ Forall2 (event_of_course utc_of_local) courses added
    /\ map ev_uid added = seq uid (length courses).
Proof.
  induction 1 as [|c cs [Hd Hw] Hcs IH]; intros uid events Hfresh.
  - exists []. rewrite app_nil_r. split; [done|]. split; constructor.
  - destruct (course_event_ok uid c Hd Hw) as (e & He & Huid & Hspec).
    simpl. rewrite He.
    assert (Hadd : add_event e events = events ++ [e]).
    { unfold add_event. rewrite decide_False; [done|].
      intros Hin. apply list_elem_of_fmap in Hin as (e' & Heq & He').
      specialize (Hfresh e' He'). lia. }
    rewrite Hadd.
    destruct (IH (S uid) (events ++ [e])) as (added & Hex & Hall & Huids).
    { intros e' He'. apply elem_of_app in He' as [He'|He'].
      - specialize (Hfresh e' He'). lia.
      - apply list_elem_of_singleton in He'. subst. lia. }
    exists (e :: added). rewrite Hex, <- app_assoc. split; [done|].
    split; [by constructor|]. simpl. by rewrite Huid, Huids.
Qed.

(** C5: for a course list whose courses have at least one date and an
    end not before their start (what [create_course] guarantees for the
    times; see C7 and C10 for the rest), [export] writes one event per
    course, in course order, each with a distinct uid so that the event
    set keeps them all: its begin and end are the first date at the
    start and end times, its name, description and location are the
    course's, and its single extra line is [RDATE] with the instants of
    all the dates at the start time, comma-joined. *)
Theorem export_one_event_per_course (uid0 : nat) (cal_name : string) (w : World)
  (courses : list ElkaCourse) :
  Forall (fun c => days c <> [] /\ time_gtb (start_time c) (end_time c) = false)
         courses ->
  exists events,
    export utc_of_local uid0 cal_name w courses
      = Ok (mk_World (pickles w) (<[cal_name +:+ ".ics" := events]> (ics_files w)))
    /\ Forall2 (event_of_course utc_of_local) courses events
    /\ NoDup (map ev_uid events).
Proof.
  intros Hok.
  destruct (export_events_ok courses Hok uid0 []) as (added & Hex & Hall & Huids).
  { intros e He. by apply elem_of_nil in He. }
  exists added. unfold export. rewrite Hex. simpl.
  split; [done|]. split; [done|]. rewrite Huids. apply NoDup_seq.
Qed.

End ExportProofs.

Lemma export_one_event_per_course_witness :
  Forall (fun c => days c <> [] /\ time_gtb (start_time c) (end_time c) = false)
         [course_a; course_b]
  /\ exists events,
       export utc_zone 0 "cal" empty_world [course_a; course_b]
         = Ok (mk_World ∅ (<["cal" +:+ ".ics" := events]> ∅))
       /\ Forall2 (event_of_course utc_zone) [course_a; course_b] events
       /\ NoDup (map ev_uid events).
Proof.
  assert (H : Forall (fun c => days c <> [] /\ time_gtb (start_time c) (end_time c) = false)
                     [course_a; course_b])
    by (repeat constructor; discriminate).
  split; [exact H|].
  exact (export_one_event_per_course utc_zone 0 "cal" empty_world
           [course_a; course_b] H).
Defined.

Section ExportFailure.

Variable utc_of_local : DateTime -> DateTime.

Lemma export_events_empty_day (courses : list ElkaCourse) (c : ElkaCourse) :
  c ∈ courses -> days c = [] ->
  forall uid events e, export_events utc_of_local uid courses events <> Ok e.
Proof.
  intros Hin Hc. induction courses as [|c' cs IH]; intros uid events e.
  - by apply elem_of_nil in Hin.
  - simpl. apply elem_of_cons in Hin as [->|Hin].
    + unfold course_event. by rewrite Hc.
    + destruct (course_event utc_of_local uid c'); [|done]. by apply IH.
Qed.

End ExportFailure.

(* ------------------------------------------------------------------ *)
(** ** Courses without dates *)

Lemma remove_options_error (courses : list ElkaCourse) (e : py_error) :
  remove_options courses = Raise e -> e = IndexError.
Proof.
  induction courses as [|c cs IH]; simpl; [done|].
  unfold course_str. destruct (days c); [congruence|].
  destruct (remove_options cs); [congruence|]. intros [= <-]. by apply IH.
Qed.

Lemma remove_options_empty_day (courses : list ElkaCourse) (c : ElkaCourse) :
  c ∈ courses -> days c = [] -> remove_options courses = Raise IndexError.
Proof.
  intros Hin Hc.
  enough (exists e, remove_options courses = Raise e) as [e He].
  { rewrite He. by rewrite (remove_options_error courses e He). }
  induction courses as [|c' cs IH]; [by apply elem_of_nil in Hin|].
  simpl. apply elem_of_cons in Hin as [->|Hin].
  - unfold course_str. rewrite Hc. by eexists.
  - destruct (course_str c'); [|by eexists].
    destruct (IH Hin) as [e ->]. by eexists.
Qed.

(** C10: a course with no dates makes [export] fail (no document is
    produced) and makes its own menu label ([str(course)]) raise
    [IndexError]; the menu of [main], which labels every stored course,
    then crashes before any action can be chosen.  So [export] and the
    menu only work when every course has at least one date. *)
Theorem export_requires_nonempty_days (utc_of_local : DateTime -> DateTime)
  (uid0 : nat) (cal_name : string) (w : World) (courses : list ElkaCourse)
  (c : ElkaCourse) :
  c ∈ courses -> days c = [] ->
  (forall w', export utc_of_local uid0 cal_name w courses <> Ok w')
  /\ course_str c = Raise IndexError
  /\ remove_options courses = Raise IndexError
  /\ (forall semester inp, load_courses w cal_name = Ok courses ->
        main_step utc_of_local uid0 cal_name semester w inp
        = Some (Crashed IndexError, inp)).
Proof.
  intros Hin Hc. split; [|split; [|split]].
  - intros w' Hex. unfold export in Hex.
    destruct (export_events utc_of_local uid0 courses []) as [evs|] eqn:E;
      [|discriminate].
    by eapply export_events_empty_day in E.
  - unfold course_str. by rewrite Hc.
  - by apply (remove_options_empty_day courses c).
  - intros semester inp Hload. unfold main_step. rewrite Hload.
    rewrite (remove_options_empty_day courses c Hin Hc). done.
Qed.

Lemma export_requires_nonempty_days_witness :
  course_no_days ∈ [course_a; course_no_days] /\ days course_no_days = []
  /\ course_str course_no_days = Raise IndexError.
Proof.
  split; [set_solver|]. split; [reflexivity|].
  exact (proj1 (proj2 (export_requires_nonempty_days utc_zone 0 "cal" empty_world
    [course_a; course_no_days] course_no_days
    ltac:(set_solver) eq_refl))).
Defined.

(* ------------------------------------------------------------------ *)
(** ** The time window of a new course *)

Lemma text_valid (default : option string) (validate : string -> bool)
  (inp : list answer) (s : string) (rest : list answer) :
  text default validate inp = Some (s, rest) -> validate s = true.
Proof.
  intros H. induction inp as [|a inp IH]; simpl in H; [discriminate|].
  destruct a as [s'| |]; try discriminate.
  set (v := if String.eqb s' "" then default_or_empty default else s') in H.
  destruct (validate v) eqn:E.
  - injection H as <- _. exact E.
  - exact (IH H).
Qed.

Lemma parsed_time_ok (s : string) (inp : list answer) (t : Time) (rest : list answer) :
  parsed_time s inp = Some (t, rest) -> parse_time s = Some t.
Proof. unfold parsed_time. destruct (parse_time s); congruence. Qed.

Lemma M_bind_Some {A B} (m : M A) (f : A -> M B) (inp : list answer)
  (y : B * list answer) :
  (m ≫= f) inp = Some y -> exists x r, m inp = Some (x, r) /\ f x r = Some y.
Proof.
  unfold mbind, M_bind. destruct (m inp) as [[x r]|]; [|discriminate].
  intros H. by exists x, r.
Qed.

Lemma M_ret_Some {A} (x : A) (inp : list answer) (y : A * list answer) :
  (mret x : M A) inp = Some y -> y = (x, inp).
Proof. unfold mret, M_ret. congruence. Qed.

(** Takes apart a hypothesis [H : (m ≫= f) inp = Some _] of the prompt
    monad, one prompt at a time. *)
Ltac run_prompts H :=
  repeat (apply M_bind_Some in H as (? & ? & ? & H)).

Lemma create_course_window (T : list ElkaDay) (inp : list answer) (c : ElkaCourse)
  (rest : list answer) :
  create_course T inp = Some (c, rest) -> time_gtb (end_time c) (start_time c) = true.
Proof.
  intros H. unfold create_course in H. run_prompts H.
  apply M_ret_Some in H. injection H as -> _. simpl.
  match goal with
  | Ht : text _ (validate_end ?st) _ = Some (?s, _),
    Hp : parsed_time ?s _ = Some (?et, _) |- _ =>
      apply text_valid in Ht; apply parsed_time_ok in Hp;
      unfold validate_end in Ht; rewrite Hp in Ht; exact Ht
  end.
Qed.

Lemma py_remove_incl {A} `{EqDecision A} (x y : A) (l : list A) :
  y ∈ py_remove x l -> y ∈ l.
Proof.
  induction l as [|a l IH]; simpl; [done|].
  case_decide; intros Hy; [by right|].
  apply elem_of_cons in Hy as [->|Hy]; [left|right; by apply IH].
Qed.

Lemma main_step_window (utc_of_local : DateTime -> DateTime) (uid0 : nat)
  (cal_name : string) (semester : list ElkaDay) (w : World) (inp : list answer)
  (courses : list ElkaCourse) (w' : World) (rest : list answer)
  (courses' : list ElkaCourse) :
  load_courses w cal_name = Ok courses ->
  Forall (fun c => time_gtb (end_time c) (start_time c) = true) courses ->
  main_step utc_of_local uid0 cal_name semester w inp = Some (Continue w', rest) ->
  load_courses w' cal_name = Ok courses' ->
  Forall (fun c => time_gtb (end_time c) (start_time c) = true) courses'.
Proof.
  intros Hl Hv Hs Hl'. unfold main_step in Hs. rewrite Hl in Hs.
  destruct (remove_options courses) as [removes|e];
    [|apply M_ret_Some in Hs; discriminate].
  apply M_bind_Some in Hs as (choice & r & _ & Hs).
  destruct choice as [|c| |].
  - apply M_bind_Some in Hs as (c & r' & Hc & Hs).
    apply M_ret_Some in Hs. injection Hs as -> _.
    rewrite load_save in Hl'. injection Hl' as <-.
    apply Forall_app. split; [done|].
    constructor; [by eapply create_course_window|constructor].
  - apply M_bind_Some in Hs as (cs' & r' & Hrm & Hs).
    apply M_ret_Some in Hs. injection Hs as -> _.
    rewrite load_save in Hl'. injection Hl' as <-.
    unfold remove_course in Hrm. apply M_bind_Some in Hrm as (confirm & r'' & _ & Hrm).
    apply M_ret_Some in Hrm. injection Hrm as -> _.
    destruct confirm; [|done].
    apply Forall_forall. intros x Hx.
    apply py_remove_incl in Hx. rewrite Forall_forall in Hv. by apply Hv.
  - destruct (export utc_of_local uid0 cal_name w courses) as [w''|e];
      apply M_ret_Some in Hs; [|discriminate].
    injection Hs as -> _. rewrite load_save in Hl'. by injection Hl' as <-.
  - apply M_ret_Some in Hs. discriminate.
Qed.

(** C7: an end time that parses but is not later than the start time is
    refused by the end time prompt, which asks again; so every course
    [create_course] returns ends after it starts, and every pass of the
    menu loop keeps "every stored course ends after it starts": the
    course it appends satisfies it, and removing or exporting keeps the
    stored list's courses. *)
Theorem end_after_start_enforced :
  (forall (start : Time) (default : option string) (v : string) (t : Time)
          (rest : list answer),
     v <> "" -> parse_time v = Some t -> time_gtb t start = false ->
     text default (validate_end start) (AText v :: rest)
     = text default (validate_end start) rest)
  /\ (forall (T : list ElkaDay) (inp : list answer) (c : ElkaCourse)
             (rest : list answer),
        create_course T inp = Some (c, rest) ->
        time_gtb (end_time c) (start_time c) = true)
  /\ (forall (utc_of_local : DateTime -> DateTime) (uid0 : nat)
             (cal_name : string) (semester : list ElkaDay) (w : World)
             (inp : list answer) (courses : list ElkaCourse) (w' : World)
             (rest : list answer) (courses' : list ElkaCourse),
        load_courses w cal_name = Ok courses ->
        Forall (fun c => time_gtb (end_time c) (start_time c) = true) courses ->
        main_step utc_of_local uid0 cal_name semester w inp
        = Some (Continue w', rest) ->
        load_courses w' cal_name = Ok courses' ->
        Forall (fun c => time_gtb (end_time c) (start_time c) = true) courses').
Proof.
  split; [|split].
  - intros start default v t rest Hv Hp Ht. simpl.
    destruct (String.eqb_spec v "") as [->|_]; [done|].
    unfold validate_end. by rewrite Hp, Ht.
  - apply create_course_window.
  - apply main_step_window.
Qed.

(** The refused end time of [add_with_bad_end] in a full pass of the
    loop: 07:30 is skipped and the course is stored with 09:45. *)
Example bad_end_time_reprompted :
  match main_step utc_zone 0 "cal" sample_semester empty_world add_with_bad_end with
  | Some (Continue w, []) => load_courses w "cal"
  | _ => Raise UnpicklingError
  end
  = Ok [mk_ElkaCourse "Analysis" "" "1.01" (mk_time 8 0) (mk_time 9 45)
          [mk_ElkaDay (mk_date 2022 2 28) "P" 1]].
Proof. vm_compute. reflexivity. Qed.

(** The scenario of the spec: the course on 2022-02-28 and 2022-03-14 at
    08:00 gives one event at 2022-02-28 08:00 with both instants in its
    [RDATE] line. *)
Example export_scenario :
  export_events utc_zone 0 [course_a] []
  = Ok [mk_Event 0 "Analysis" "" "1.01"
          (mk_datetime (mk_date 2022 2 28) (mk_time 8 0))
          (mk_datetime (mk_date 2022 2 28) (mk_time 9 45))
          [mk_ContentLine "RDATE" "20220228T080000Z,20220314T080000Z"]].
Proof. vm_compute. reflexivity. Qed.

(* ------------------------------------------------------------------ *)
(** ** Confirming no dates *)

(** C4 (the code accepts an empty selection): adding a course and
    unticking its only default date stores a course with no dates, since
    nothing checks the checkbox's answer; the next pass of the menu loop
    then crashes with [IndexError] while labelling that course, whatever
    the user answers, and so does every later run on this pickle. *)
Theorem empty_selection_stored_then_crashes :
  create_course sample_semester (tail add_with_no_dates)
    = Some (course_no_days, [])
  /\ main_step utc_zone 0 "cal" sample_semester empty_world add_with_no_dates
     = Some (Continue (save_courses empty_world "cal" [course_no_days]), [])
  /\ load_courses (save_courses empty_world "cal" [course_no_days]) "cal"
     = Ok [course_no_days]
  /\ days course_no_days = []
  /\ (forall inp, main_step utc_zone 0 "cal" sample_semester
                    (save_courses empty_world "cal" [course_no_days]) inp
                  = Some (Crashed IndexError, inp)).
Proof.
  split; [vm_compute; reflexivity|].
  split; [vm_compute; reflexivity|].
  split; [apply load_save|].
  split; [reflexivity|].
  intros inp. unfold main_step. rewrite load_save. reflexivity.
Qed.

(* ================================================================== *)
(** * Further properties of the script *)

(* ------------------------------------------------------------------ *)
(** ** Times: [strptime] and [strftime] with [DISPLAY_TIME_FMT] *)

(** Every time of day, checked one by one. *)
Lemma strftime_parse_all :
  forallb (fun h => forallb (fun m =>
    bool_decide (parse_time (strftime_HM (mk_time (Z.of_nat h) (Z.of_nat m)))
                 = Some (mk_time (Z.of_nat h) (Z.of_nat m))))
    (seq 0 60)) (seq 0 24) = true.
Proof. vm_compute. reflexivity. Qed.

Lemma parse_time_strftime_HM (h m : Z) :
  0 <= h <= 23 -> 0 <= m <= 59 ->
  parse_time (strftime_HM (mk_time h m)) = Some (mk_time h m).
Proof.
  intros Hh Hm.
  pose proof strftime_parse_all as Hall.
  rewrite forallb_forall in Hall.
  specialize (Hall (Z.to_nat h)). rewrite forallb_forall in Hall.
  specialize (Hall ltac:(apply in_seq; lia) (Z.to_nat m) ltac:(apply in_seq; lia)).
  apply bool_decide_eq_true in Hall. rewrite !Z2Nat.id in Hall by lia. exact Hall.
Qed.

(** Formatting a time of day with [DISPLAY_TIME_FMT] and parsing it back
    gives the same time (the end time prompt relies on it for its
    default). *)
Theorem strftime_strptime_round_trip (h m : Z) :
  0 <= h <= 23 -> 0 <= m <= 59 ->
  parse_time (strftime_HM (mk_time h m)) = Some (mk_time h m).
Proof. exact (parse_time_strftime_HM h m). Qed.

Lemma strftime_strptime_round_trip_witness :
  parse_time (strftime_HM (mk_time 7 5)) = Some (mk_time 7 5).
Proof. apply (strftime_strptime_round_trip 7 5); lia. Defined.

Lemma pat_digit_range (lo hi : Z) (s : list ascii) (a : Z) (r : list ascii) :
  In (a, r) (pat_digit lo hi s) -> lo <= a <= hi.
Proof.
  destruct s as [|c s]; simpl; [done|].
  case_eq ((lo <=? Z.of_nat (nat_of_ascii c) - 48)
           && (Z.of_nat (nat_of_ascii c) - 48 <=? hi)); intros Hc; simpl; [|done].
  intros [[= <- _] | []]. apply andb_true_iff in Hc as [H1 H2]. lia.
Qed.

Lemma pat_two_range (lo1 hi1 lo2 hi2 : Z) (s : list ascii) (a : Z) (r : list ascii) :
  In (a, r) (pat_two lo1 hi1 lo2 hi2 s) ->
  exists x y, a = 10 * x + y /\ lo1 <= x <= hi1 /\ lo2 <= y <= hi2.
Proof.
  unfold pat_two, pat_seq, pat_ret. rewrite in_flat_map.
  intros [[x s1] [Hx Hin]]. rewrite in_flat_map in Hin.
  destruct Hin as [[y s2] [Hy [[= <- _] | []]]].
  exists x, y. split; [done|]. split.
  - by eapply pat_digit_range.
  - by eapply pat_digit_range.
Qed.

Lemma pat_H_range (s : list ascii) (a : Z) (r : list ascii) :
  In (a, r) (pat_H s) -> 0 <= a <= 23.
Proof.
  unfold pat_H, pat_alt. rewrite !in_app_iff.
  intros [H | [H | H]].
  - apply pat_two_range in H as (x & y & -> & ? & ?). lia.
  - apply pat_two_range in H as (x & y & -> & ? & ?). lia.
  - apply pat_digit_range in H. lia.
Qed.

Lemma pat_M_range (s : list ascii) (a : Z) (r : list ascii) :
  In (a, r) (pat_M s) -> 0 <= a <= 59.
Proof.
  unfold pat_M, pat_alt. rewrite !in_app_iff.
  intros [H | H].
  - apply pat_two_range in H as (x & y & -> & ? & ?). lia.
  - apply pat_digit_range in H. lia.
Qed.

(** Whatever [strptime(v, DISPLAY_TIME_FMT)] accepts is a time of day: an
    hour in 0..23 and a minute in 0..59. *)
Theorem parse_time_range (s : string) (t : Time) :
  parse_time s = Some t -> 0 <= hour t <= 23 /\ 0 <= minute t <= 59.
Proof.
  unfold parse_time, strptime_match.
  set (l := pat_seq pat_H _ (String.list_ascii_of_string s)).
  case_eq l; [done|]. intros [t' r] rest Hl Ht.
  destruct r; [|done]. injection Ht as <-.
  assert (Hin : In (t', @nil ascii) l) by (rewrite Hl; left; reflexivity).
  unfold l, pat_seq, pat_ret in Hin. rewrite in_flat_map in Hin.
  destruct Hin as [[h s1] [Hh Hin]]. rewrite in_flat_map in Hin.
  destruct Hin as [[u s2] [_ Hin]]. rewrite in_flat_map in Hin.
  destruct Hin as [[m s3] [Hm [[= <- _] | []]]].
  simpl. split; [by eapply pat_H_range | by eapply pat_M_range].
Qed.

Lemma parse_time_range_witness :
  parse_time "9:5" = Some (mk_time 9 5) /\ 0 <= 9 <= 23 /\ 0 <= 5 <= 59.
Proof.
  split; [reflexivity|].
  exact (parse_time_range "9:5" (mk_time 9 5) eq_refl).
Defined.

(* ------------------------------------------------------------------ *)
(** ** The default of the end time prompt *)

Lemma time_gtb_minutes (a b h m : Z) :
  0 <= b <= 59 -> 0 <= m <= 59 ->
  time_gtb (mk_time a b) (mk_time h m) = (60 * h + m <? 60 * a + b).
Proof.
  intros Hb Hm. unfold time_gtb; simpl.
  destruct (Z.ltb_spec h a), (Z.eqb_spec h a), (Z.ltb_spec m b),
           (Z.ltb_spec (60 * h + m) (60 * a + b)); simpl; lia.
Qed.

(** The default end time is the start plus 1 h 45 min, read on a
    24-hour clock, and its text parses back to that time.  The end time
    validator accepts the default exactly when the start is before 22:15.
    From 22:15 on, the default wraps past midnight and is refused, so an
    empty answer is asked again. *)
Theorem end_time_default_spec (h m : Z) :
  0 <= h <= 23 -> 0 <= m <= 59 ->
  let total := (60 * h + m + 105) mod 1440 in
  parse_time (strftime_HM (add_minutes (mk_time h m) 105))
    = Some (mk_time (total / 60) (total mod 60))
  /\ validate_end (mk_time h m) (strftime_HM (add_minutes (mk_time h m) 105))
     = (60 * h + m <? 1335).
Proof.
  intros Hh Hm total.
  assert (Ht : 0 <= total < 1440) by (apply Z.mod_pos_bound; lia).
  assert (Hp : parse_time (strftime_HM (add_minutes (mk_time h m) 105))
               = Some (mk_time (total / 60) (total mod 60))).
  { apply parse_time_strftime_HM.
    - split; [apply Z.div_pos; lia|]. apply Z.lt_succ_r, Z.div_lt_upper_bound; lia.
    - pose proof (Z.mod_pos_bound total 60 ltac:(lia)). lia. }
  split; [exact Hp|].
  unfold validate_end. rewrite Hp.
  rewrite time_gtb_minutes by (try pose proof (Z.mod_pos_bound total 60 ltac:(lia)); lia).
  assert (Hdiv : 60 * (total / 60) + total mod 60 = total)
    by (symmetry; apply Z.div_mod; lia).
  rewrite Hdiv.
  destruct (Z.ltb_spec (60 * h + m) 1335).
  - apply Z.ltb_lt. unfold total. rewrite Z.mod_small; lia.
  - apply Z.ltb_ge. unfold total.
    rewrite (Z.mod_eq (60 * h + m + 105) 1440) by lia.
    assert ((60 * h + m + 105) / 1440 = 1) as -> by (symmetry; apply Z.div_unique with (r := 60 * h + m + 105 - 1440); lia).
    lia.
Qed.

Lemma end_time_default_spec_witness :
  (0 <= 22 <= 23 /\ 0 <= 30 <= 59)
  /\ validate_end (mk_time 22 30) (strftime_HM (add_minutes (mk_time 22 30) 105)) = false.
Proof.
  split; [lia|].
  exact (proj2 (end_time_default_spec 22 30 ltac:(lia) ltac:(lia))).
Defined.

(* ------------------------------------------------------------------ *)
(** ** The date checkbox *)

Lemma omap_lookup_cons_S {A} (x : A) (l : list A) (ks : list nat) :
  omap (fun k => (x :: l) !! k) (map S ks) = omap (fun k => l !! k) ks.
Proof. induction ks as [|k ks IH]; [done|]. simpl in *. destruct (l !! k); [f_equal|]; exact IH. Qed.
Lemma omap_lookup_cons_0 {A} (x : A) (l : list A) (ks : list nat) :
  omap (fun k => (x :: l) !! k) (0%nat :: map S ks) = x :: omap (fun k => l !! k) ks.
Proof. rewrite <- (omap_lookup_cons_S x l ks). reflexivity. Qed.
Lemma filter_map_S (g : nat -> bool) (xs : list nat) :
  List.filter g (map S xs) = map S (List.filter (fun k => g (S k)) xs).
Proof.
  induction xs as [|x xs IH]; simpl; [done|].
  destruct (g (S x)); simpl; by rewrite IH.
Qed.
Lemma omap_initial_filter {A} (f : A -> bool) (l : list A) :
  omap (fun k => l !! k)
    (List.filter (fun k => match l !! k with Some c => f c | None => false end)
                 (seq 0 (length l)))
  = List.filter f l.
Proof.
  induction l as [|x l IH]; [done|].
  cbn [length seq]. rewrite <- seq_shift. cbn [List.filter].
  rewrite filter_map_S.
  change (fun k => match (x :: l) !! S k with Some c => f c | None => false end)
    with (fun k => match l !! k with Some c => f c | None => false end).
  change ((x :: l) !! 0%nat) with (Some x). cbn iota.
  destruct (f x).
  - by rewrite omap_lookup_cons_0, IH.
  - by rewrite omap_lookup_cons_S, IH.
Qed.

Lemma py_remove_NoDup {A} `{EqDecision A} (x : A) (l : list A) :
  NoDup l -> NoDup (py_remove x l).
Proof.
  induction l as [|a l IH]; simpl; [done|].
  intros Hnd. apply NoDup_cons in Hnd as [Ha Hnd].
  case_decide; [done|]. constructor; [|by apply IH].
  intros Hin. apply Ha. by eapply py_remove_incl.
Qed.

Lemma checkbox_toggle_ok (n : nat) (sel : list nat) (k : nat) :
  NoDup sel /\ Forall (fun j => j < n)%nat sel ->
  NoDup (checkbox_toggle n sel k) /\ Forall (fun j => j < n)%nat (checkbox_toggle n sel k).
Proof.
  intros [Hnd Hlt]. unfold checkbox_toggle.
  case_decide; [done|]. case_decide as Hk.
  - split; [by apply py_remove_NoDup|].
    apply Forall_forall. intros j Hj.
    rewrite Forall_forall in Hlt. apply Hlt.
    by apply (py_remove_incl k).
  - split.
    + apply NoDup_app. split; [done|]. split; [|apply NoDup_singleton].
      intros j Hj Hj'. apply list_elem_of_singleton in Hj'. subst j.
      by apply Hk.
    + apply Forall_app. split; [done|]. constructor; [lia|constructor].
Qed.

Lemma sel_ok_length (n : nat) (sel : list nat) :
  NoDup sel -> Forall (fun k => k < n)%nat sel -> (length sel <= n)%nat.
Proof.
  intros Hnd Hlt. rewrite <- (length_seq n 0).
  apply NoDup_incl_length; [by apply NoDup_ListNoDup|].
  intros j Hj. apply in_seq. rewrite Forall_forall in Hlt.
  specialize (Hlt j (proj2 (list_elem_of_In _ _) Hj)). lia.
Qed.

Lemma omap_lookup_NoDup {A} (l : list A) (sel : list nat) :
  NoDup l -> NoDup sel -> NoDup (omap (fun k => l !! k) sel).
Proof.
  intros Hl. induction sel as [|k sel IH]; simpl; [constructor|].
  intros Hs. apply NoDup_cons in Hs as [Hk Hs].
  destruct (l !! k) as [x|] eqn:Ex; [|by apply IH].
  constructor; [|by apply IH].
  intros Hin. apply list_elem_of_omap in Hin as (j & Hj & Ej).
  apply Hk. by rewrite (NoDup_lookup l k j x Hl Ex Ej).
Qed.

Lemma checkbox_initial_ok (choices default : list ElkaDay) :
  NoDup (checkbox_initial choices default)
  /\ Forall (fun k => k < length choices)%nat (checkbox_initial choices default).
Proof.
  unfold checkbox_initial. split.
  - eapply sublist_NoDup; [apply NoDup_seq|apply filter_sublist].
  - apply Forall_forall. intros k Hk. apply list_elem_of_In, filter_In in Hk as [Hk _].
    apply in_seq in Hk. lia.
Qed.

Lemma checkbox_selection_ok (choices default : list ElkaDay) (toggles : list nat) :
  let sel := foldl (checkbox_toggle (length choices))
                   (checkbox_initial choices default) toggles in
  NoDup sel /\ Forall (fun k => k < length choices)%nat sel.
Proof.
  simpl. generalize (checkbox_initial_ok choices default).
  generalize (checkbox_initial choices default).
  induction toggles as [|t ts IH]; intros sel Hsel; simpl; [done|].
  apply IH. by apply checkbox_toggle_ok.
Qed.

Lemma omap_length_le {A B} (f : A -> option B) (l : list A) :
  (length (omap f l) <= length l)%nat.
Proof.
  induction l as [|x l IH]; simpl; [lia|].
  destruct (f x); simpl; [apply le_n_S|apply le_S]; exact IH.
Qed.

(** Pressing Enter at the date checkbox without toggling anything gives
    exactly the default dates ([days_default]), in the order of the
    offered dates. *)
Theorem checkbox_untouched_gives_default (all : list ElkaDay)
  (parities : list string) (rest : list answer) :
  checkbox all (days_default all parities) (AChecks [] :: rest)
  = Some (days_default all parities, rest).
Proof.
  unfold checkbox, checkbox_result, checkbox_initial. cbn [foldl].
  rewrite (omap_initial_filter (fun c => bool_decide (c ∈ days_default all parities))).
  do 2 f_equal. unfold days_default at 2.
  apply List.filter_ext_in. intros d Hd.
  apply bool_decide_ext. rewrite days_default_member.
  split; [by intros [_ ?]|]. intros Hp. split; [|done]. by apply list_elem_of_In.
Qed.

(** Whatever the user toggles, the confirmed dates take each offered
    position at most once: there are never more dates than offered, and
    when the offered dates are distinct, so are the confirmed ones. *)
Theorem checkbox_no_repeats (choices default : list ElkaDay) (toggles : list nat) :
  (length (checkbox_result choices default toggles) <= length choices)%nat
  /\ (NoDup choices -> NoDup (checkbox_result choices default toggles)).
Proof.
  pose proof (checkbox_selection_ok choices default toggles) as [Hnd Hlt].
  unfold checkbox_result. split.
  - etransitivity; [apply omap_length_le|]. by apply sel_ok_length.
  - intros Hc. by apply omap_lookup_NoDup.
Qed.

(* ------------------------------------------------------------------ *)
(** ** The main menu *)

Lemma course_str_ok (c : ElkaCourse) : days c <> [] -> exists s, course_str c = Ok s.
Proof. unfold course_str. destruct (days c); [done|]. by eexists. Qed.

Lemma remove_options_ok (courses : list ElkaCourse) :
  Forall (fun c => days c <> []) courses ->
  exists opts, remove_options courses = Ok opts
               /\ Forall2 (fun o c => snd o = RemoveCourse c) opts courses.
Proof.
  induction courses as [|c cs IH]; intros Hd; simpl.
  - exists []. split; [done|constructor].
  - apply Forall_cons in Hd as [Hc Hcs].
    destruct (course_str_ok c Hc) as [s ->].
    destruct (IH Hcs) as (opts & -> & Hopts).
    eexists. split; [reflexivity|]. by constructor.
Qed.

Lemma main_menu_remove (a : string * MenuAction) (opts : list (string * MenuAction))
  (b c : string * MenuAction) (i : nat) :
  (i < length opts)%nat -> ([a] ++ opts ++ [b; c]) !! S i = opts !! i.
Proof. intros Hi. simpl. by rewrite lookup_app_l. Qed.


Lemma main_menu_export (a : string * MenuAction) (opts : list (string * MenuAction))
  (b c : string * MenuAction) :
  ([a] ++ opts ++ [b; c]) !! (S (length opts)) = Some b.
Proof. simpl. rewrite lookup_app_r by lia. by rewrite Nat.sub_diag. Qed.

(** The semantics of [list.remove]: the first element equal to [x] goes. *)
Lemma py_remove_first {A} `{EqDecision A} (x : A) (l : list A) :
  x ∈ l -> exists l1 l2, l = l1 ++ x :: l2 /\ (x ∉ l1) /\ py_remove x l = l1 ++ l2.
Proof.
  induction l as [|y l IH]; intros Hx; [by apply elem_of_nil in Hx|].
  simpl. case_decide as Hxy.
  - subst y. exists [], l. repeat split; [set_solver].
  - apply elem_of_cons in Hx as [->|Hx]; [done|].
    destruct (IH Hx) as (l1 & l2 & -> & Hn & ->).
    exists (y :: l1), l2. repeat split. set_solver.
Qed.

Lemma main_step_remove_entry (utc_of_local : DateTime -> DateTime) (uid0 : nat)
  (cal_name : string) (semester : list ElkaDay) (w : World)
  (courses : list ElkaCourse) (i : nat) (c : ElkaCourse) :
  load_courses w cal_name = Ok courses ->
  Forall (fun c => days c <> []) courses ->
  courses !! i = Some c ->
  forall j r, main_step utc_of_local uid0 cal_name semester w
                (AChoice (S i) :: AChoice j :: r)
              = match remove_course courses c (AChoice j :: r) with
                | Some (cs, r') => Some (Continue (save_courses w cal_name cs), r')
                | None => None
                end.
Proof.
  intros Hl Hd Hi j r.
  destruct (remove_options_ok courses Hd) as (opts & Hopts & Hrel).
  destruct (Forall2_lookup_r _ _ _ _ _ Hrel Hi) as ([s act] & Hs & Hact).
  simpl in Hact. subst act.
  assert (Hlen : (i < length opts)%nat)
    by (apply lookup_lt_Some in Hs; exact Hs).
  unfold main_step. rewrite Hl, Hopts.
  unfold mbind, M_bind at 1. unfold list_input at 1.
  rewrite main_menu_remove, Hs by exact Hlen. reflexivity.
Qed.

(** The [Remove] entries of the menu: when the stored courses all have
    dates (so that [str(course)] labels them), entry [i + 1] of the menu
    removes the [i]-th stored course.  Answering "Yes" stores the list
    without its first course equal to it, the others kept in order;
    answering "No" stores the list unchanged. *)
Theorem remove_entry_effect (utc_of_local : DateTime -> DateTime) (uid0 : nat)
  (cal_name : string) (semester : list ElkaDay) (w : World)
  (courses : list ElkaCourse) (i : nat) (c : ElkaCourse) (rest : list answer) :
  load_courses w cal_name = Ok courses ->
  Forall (fun c => days c <> []) courses ->
  courses !! i = Some c ->
  (exists l1 l2, courses = l1 ++ c :: l2 /\ (c ∉ l1)
     /\ main_step utc_of_local uid0 cal_name semester w
          (AChoice (S i) :: AChoice 0 :: rest)
        = Some (Continue (save_courses w cal_name (l1 ++ l2)), rest))
  /\ main_step utc_of_local uid0 cal_name semester w
       (AChoice (S i) :: AChoice 1 :: rest)
     = Some (Continue (save_courses w cal_name courses), rest).
Proof.
  intros Hl Hd Hi.
  pose proof (main_step_remove_entry utc_of_local uid0 cal_name semester w
                courses i c Hl Hd Hi) as Hstep.
  split.
  - destruct (py_remove_first c courses) as (l1 & l2 & Heq & Hn & Hrm).
    { by eapply list_elem_of_lookup_2. }
    exists l1, l2. repeat split; [done|done|].
    rewrite Hstep. unfold remove_course. simpl. by rewrite Hrm.
  - rewrite Hstep. reflexivity.
Qed.

Lemma remove_entry_effect_witness :
  load_courses (save_courses empty_world "cal" [course_a; course_b]) "cal"
    = Ok [course_a; course_b]
  /\ Forall (fun c => days c <> []) [course_a; course_b]
  /\ [course_a; course_b] !! 1%nat = Some course_b
  /\ main_step utc_zone 0 "cal" sample_semester
       (save_courses empty_world "cal" [course_a; course_b])
       [AChoice 2; AChoice 1]
     = Some (Continue (save_courses (save_courses empty_world "cal" [course_a; course_b])
                         "cal" [course_a; course_b]), []).
Proof.
  assert (Hl : load_courses (save_courses empty_world "cal" [course_a; course_b]) "cal"
               = Ok [course_a; course_b]) by apply load_save.
  assert (Hd : Forall (fun c => days c <> []) [course_a; course_b])
    by (repeat constructor; discriminate).
  split; [exact Hl|]. split; [exact Hd|]. split; [reflexivity|].
  exact (proj2 (remove_entry_effect utc_zone 0 "cal" sample_semester _
                  [course_a; course_b] 1 course_b [] Hl Hd eq_refl)).
Defined.



Lemma main_step_export_entry (utc_of_local : DateTime -> DateTime) (uid0 : nat)
  (cal_name : string) (semester : list ElkaDay) (w : World)
  (courses : list ElkaCourse) :
  load_courses w cal_name = Ok courses ->
  Forall (fun c => days c <> []) courses ->
  forall rest, main_step utc_of_local uid0 cal_name semester w
                 (AChoice (S (length courses)) :: rest)
               = match export utc_of_local uid0 cal_name w courses with
                 | Raise e => Some (Crashed e, rest)
                 | Ok w' => Some (Continue (save_courses w' cal_name courses), rest)
                 end.
Proof.
  intros Hl Hd rest.
  destruct (remove_options_ok courses Hd) as (opts & Hopts & Hrel).
  rewrite <- (Forall2_length _ _ _ Hrel).
  unfold main_step. rewrite Hl, Hopts.
  unfold mbind, M_bind at 1. unfold list_input at 1.
  rewrite main_menu_export.
  by destruct (export utc_of_local uid0 cal_name w courses).
Qed.






(** The [Export to .ics] entry (after the [Remove] entries): for stored
    courses that have dates and do not end before they start, the pass
    writes [<cal_name>.ics] with one event per course, stores the course
    list unchanged, and touches no other file. *)
Theorem export_entry_keeps_courses (utc_of_local : DateTime -> DateTime)
  (uid0 : nat) (cal_name : string) (semester : list ElkaDay) (w : World)
  (courses : list ElkaCourse) (rest : list answer) :
  load_courses w cal_name = Ok courses ->
  Forall (fun c => days c <> [] /\ time_gtb (start_time c) (end_time c) = false)
         courses ->
  exists w' events,
    main_step utc_of_local uid0 cal_name semester w
      (AChoice (S (length courses)) :: rest) = Some (Continue w', rest)
    /\ load_courses w' cal_name = Ok courses
    /\ ics_files w' !! (cal_name +:+ ".ics") = Some events
    /\ Forall2 (event_of_course utc_of_local) courses events
    /\ (forall f, f <> cal_name +:+ ".ics" -> ics_files w' !! f = ics_files w !! f)
    /\ (forall f, f <> pickle_path cal_name -> pickles w' !! f = pickles w !! f).
Proof.
  intros Hl Hok.
  assert (Hd : Forall (fun c => days c <> []) courses)
    by (eapply Forall_impl; [exact Hok|]; by intros c [? _]).
  destruct (export_events_ok utc_of_local courses Hok uid0 []) as (events & Hex & Hall & _).
  { intros e He. by apply elem_of_nil in He. }
  set (w0 := mk_World (pickles w) (<[cal_name +:+ ".ics" := events]> (ics_files w))).
  exists (save_courses w0 cal_name courses), events.
  rewrite (main_step_export_entry _ _ _ _ _ _ Hl Hd).
  unfold export. rewrite Hex. simpl.
  split; [done|]. split; [apply load_save|].
  split; [by rewrite lookup_insert_eq|]. split; [done|].
  split.
  - intros f Hf. simpl. by rewrite lookup_insert_ne by congruence.
  - intros f Hf. simpl. by rewrite lookup_insert_ne by congruence.
Qed.

Lemma export_entry_keeps_courses_witness :
  exists w' events,
    main_step utc_zone 0 "cal" sample_semester
      (save_courses empty_world "cal" [course_a; course_b])
      [AChoice 3] = Some (Continue w', [])
    /\ load_courses w' "cal" = Ok [course_a; course_b]
    /\ ics_files w' !! ("cal" +:+ ".ics") = Some events
    /\ Forall2 (event_of_course utc_zone) [course_a; course_b] events
    /\ (forall f, f <> "cal" +:+ ".ics" ->
          ics_files w' !! f = ics_files (save_courses empty_world "cal" [course_a; course_b]) !! f)
    /\ (forall f, f <> pickle_path "cal" ->
          pickles w' !! f = pickles (save_courses empty_world "cal" [course_a; course_b]) !! f).
Proof.
  assert (Hl : load_courses (save_courses empty_world "cal" [course_a; course_b]) "cal"
               = Ok [course_a; course_b]) by apply load_save.
  assert (Hok : Forall (fun c => days c <> [] /\ time_gtb (start_time c) (end_time c) = false)
                  [course_a; course_b])
    by (repeat constructor; discriminate).
  exact (export_entry_keeps_courses utc_zone 0 "cal" sample_semester _
           [course_a; course_b] [] Hl Hok).
Defined.

(* ------------------------------------------------------------------ *)
(** ** A pickle file cut short *)

(** The unpickler only takes opcodes off the front of the stream: what a
    reader leaves is a suffix of what it was given. *)
Lemma read_bind_suffix {A B} (p : Reader A) (f : A -> Reader B) :
  (forall ops a r, p ops = Some (a, r) -> r `suffix_of` ops) ->
  (forall a ops b r, f a ops = Some (b, r) -> r `suffix_of` ops) ->
  forall ops b r, read_bind p f ops = Some (b, r) -> r `suffix_of` ops.
Proof.
  intros Hp Hf ops b r. unfold read_bind.
  destruct (p ops) as [[a r1]|] eqn:E; [|done].
  intros Hb. transitivity r1; [by eapply Hf|by eapply Hp].
Qed.

Lemma read_ret_suffix {A} (a : A) ops b r : read_ret a ops = Some (b, r) -> r `suffix_of` ops.
Proof. unfold read_ret. intros [= _ <-]. done. Qed.

Lemma read_int_suffix ops z r : read_int ops = Some (z, r) -> r `suffix_of` ops.
Proof.
  unfold read_int. destruct ops as [|[] ops]; try done.
  intros [= _ <-]. by apply suffix_cons_r.
Qed.

Lemma read_unicode_suffix ops s r : read_unicode ops = Some (s, r) -> r `suffix_of` ops.
Proof.
  unfold read_unicode. destruct ops as [|[] ops]; try done.
  intros [= _ <-]. by apply suffix_cons_r.
Qed.

Lemma read_op_suffix o ops u r : read_op o ops = Some (u, r) -> r `suffix_of` ops.
Proof.
  unfold read_op. destruct ops as [|o' ops]; [done|].
  case_decide; [|done]. intros [= _ <-]. by apply suffix_cons_r.
Qed.

Create HintDb reader_suffix.
#[local] Hint Resolve read_int_suffix read_unicode_suffix : reader_suffix.

Ltac reader_suffix :=
  repeat match goal with
  | H : forall ops a r, ?f ops = Some (a, r) -> _
    |- forall ops a r, ?f ops = Some (a, r) -> _ => exact H
  | |- forall ops b r, read_bind _ _ ops = Some (b, r) -> _ =>
      apply read_bind_suffix; [|intros ?]
  | |- forall a ops b r, read_bind _ _ ops = Some (b, r) -> _ =>
      intros ?; apply read_bind_suffix; [|intros ?]
  | |- forall ops a r, read_op _ ops = Some (a, r) -> _ => apply read_op_suffix
  | |- forall a ops b r, read_op _ ops = Some (b, r) -> _ => intros ?; apply read_op_suffix
  | |- forall ops a r, read_int ops = Some (a, r) -> _ => apply read_int_suffix
  | |- forall ops a r, read_unicode ops = Some (a, r) -> _ => apply read_unicode_suffix
  | |- forall ops b r, read_ret _ ops = Some (b, r) -> _ => apply read_ret_suffix
  | |- forall a ops b r, read_ret _ ops = Some (b, r) -> _ => intros ?; apply read_ret_suffix
  | |- forall ops a r, _ ops = Some (a, r) -> _ => solve [eauto with reader_suffix]
  | |- forall x ops a r, _ ops = Some (a, r) -> _ => intros ?; solve [eauto with reader_suffix]
  end.

Lemma read_reduce_suffix {A} (q : string) (fields : Reader A) :
  (forall ops a r, fields ops = Some (a, r) -> r `suffix_of` ops) ->
  forall ops a r, read_reduce q fields ops = Some (a, r) -> r `suffix_of` ops.
Proof. intros Hf. unfold read_reduce. reader_suffix. Qed.

Lemma read_date_suffix ops d r : read_date ops = Some (d, r) -> r `suffix_of` ops.
Proof. revert ops d r. apply read_reduce_suffix. reader_suffix. Qed.
#[local] Hint Resolve read_date_suffix : reader_suffix.

Lemma read_time_suffix ops t r : read_time ops = Some (t, r) -> r `suffix_of` ops.
Proof. revert ops t r. apply read_reduce_suffix. reader_suffix. Qed.
#[local] Hint Resolve read_time_suffix : reader_suffix.

Lemma read_day_suffix ops d r : read_day ops = Some (d, r) -> r `suffix_of` ops.
Proof. revert ops d r. apply read_reduce_suffix. reader_suffix. Qed.
#[local] Hint Resolve read_day_suffix : reader_suffix.

Lemma read_items_suffix {A} (item : Reader A) :
  (forall ops a r, item ops = Some (a, r) -> r `suffix_of` ops) ->
  forall fuel ops xs r, read_items fuel item ops = Some (xs, r) -> r `suffix_of` ops.
Proof.
  intros Hi fuel. induction fuel as [|f IH]; intros ops xs r; simpl.
  - destruct ops as [|[] ops]; try done. intros [= _ <-]. by apply suffix_cons_r.
  - assert (Hgen : match item ops with
                   | Some (x, r1) => match read_items f item r1 with
                                     | Some (xs, r') => Some (x :: xs, r')
                                     | None => None end
                   | None => None end = Some (xs, r) -> r `suffix_of` ops).
    { destruct (item ops) as [[x r1]|] eqn:E; [|done].
      destruct (read_items f item r1) as [[ys r2]|] eqn:E2; [|done].
      intros [= _ <-]. transitivity r1; [by eapply IH|by eapply Hi]. }
    destruct ops as [|[] ops]; try exact Hgen.
    intros [= _ <-]. by apply suffix_cons_r.
Qed.

Lemma read_list_suffix {A} (item : Reader A) :
  (forall ops a r, item ops = Some (a, r) -> r `suffix_of` ops) ->
  forall ops xs r, read_list item ops = Some (xs, r) -> r `suffix_of` ops.
Proof.
  intros Hi ops xs r. unfold read_list.
  destruct ops as [|[] [|[] ops]]; try done.
  intros H. apply (read_items_suffix item Hi) in H.
  transitivity ops; [done|]. by do 2 apply suffix_cons_r.
Qed.

Lemma read_day_list_suffix ops ds r :
  read_list read_day ops = Some (ds, r) -> r `suffix_of` ops.
Proof. apply read_list_suffix. exact read_day_suffix. Qed.
#[local] Hint Resolve read_day_list_suffix : reader_suffix.









(* ------------------------------------------------------------------ *)
(** ** The courses [create_course] returns *)





(* ------------------------------------------------------------------ *)
(** ** Exporting twice *)

Lemma course_event_uid (utc_of_local : DateTime -> DateTime) (u : nat) (c : ElkaCourse) :
  course_event utc_of_local u c
  = match course_event utc_of_local 0 c with
    | Ok e => Ok (mk_Event u (ev_name e) (ev_description e) (ev_location e)
                    (ev_begin e) (ev_end e) (ev_extra e))
    | Raise x => Raise x
    end.
Proof.
  unfold course_event. destruct (days c); [done|].
  by destruct (datetime_ltb _ _).
Qed.

Lemma add_event_fresh (e : Event) (events : list Event) :
  (forall e', e' ∈ events -> (ev_uid e' < ev_uid e)%nat) ->
  add_event e events = events ++ [e].
Proof.
  intros Hf. unfold add_event. rewrite decide_False; [done|].
  intros Hin. apply list_elem_of_fmap in Hin as (e' & Heq & He').
  specialize (Hf e' He'). lia.
Qed.

Lemma export_events_any_uid (utc_of_local : DateTime -> DateTime)
  (courses : list ElkaCourse) :
  forall u1 u2 evs1 evs2,
  (forall e, e ∈ evs1 -> (ev_uid e < u1)%nat) ->
  (forall e, e ∈ evs2 -> (ev_uid e < u2)%nat) ->
  Forall2 (fun a b => (ev_name a, ev_description a, ev_location a,
                       ev_begin a, ev_end a, ev_extra a)
                      = (ev_name b, ev_description b, ev_location b,
                         ev_begin b, ev_end b, ev_extra b)) evs1 evs2 ->
  match export_events utc_of_local u1 courses evs1,
        export_events utc_of_local u2 courses evs2 with
  | Ok a, Ok b =>
      Forall2 (fun a b => (ev_name a, ev_description a, ev_location a,
                           ev_begin a, ev_end a, ev_extra a)
                          = (ev_name b, ev_description b, ev_location b,
                             ev_begin b, ev_end b, ev_extra b)) a b
  | Raise x, Raise y => x = y
  | _, _ => False
  end.
Proof.
  induction courses as [|c cs IH]; intros u1 u2 evs1 evs2 H1 H2 Hrel; simpl; [done|].
  rewrite (course_event_uid utc_of_local u1 c), (course_event_uid utc_of_local u2 c).
  destruct (course_event utc_of_local 0 c) as [e|x]; [|done].
  rewrite !add_event_fresh by done.
  apply IH.
  - intros e' He'. apply elem_of_app in He' as [He'|He'].
    + specialize (H1 e' He'). lia.
    + apply list_elem_of_singleton in He'. subst. simpl. lia.
  - intros e' He'. apply elem_of_app in He' as [He'|He'].
    + specialize (H2 e' He'). lia.
    + apply list_elem_of_singleton in He'. subst. simpl. lia.
  - apply Forall2_app; [done|]. by constructor.
Qed.

(** Exporting the same course list twice (whatever the identifiers [ics]
    draws, whatever the files around) either fails twice with the same
    exception or writes two documents whose events agree one by one in
    name, description, location, begin, end and [RDATE] line: only the
    generated uids differ. *)
Theorem export_twice_same_content (utc_of_local : DateTime -> DateTime)
  (u1 u2 : nat) (cal_name : string) (w1 w2 : World) (courses : list ElkaCourse) :
  match export utc_of_local u1 cal_name w1 courses,
        export utc_of_local u2 cal_name w2 courses with
  | Ok w1', Ok w2' =>
      exists evs1 evs2,
        ics_files w1' !! (cal_name +:+ ".ics") = Some evs1
        /\ ics_files w2' !! (cal_name +:+ ".ics") = Some evs2
        /\ Forall2 (fun a b => (ev_name a, ev_description a, ev_location a,
                                ev_begin a, ev_end a, ev_extra a)
                               = (ev_name b, ev_description b, ev_location b,
                                  ev_begin b, ev_end b, ev_extra b)) evs1 evs2
  | Raise x, Raise y => x = y
  | _, _ => False
  end.
Proof.
  pose proof (export_events_any_uid utc_of_local courses u1 u2 [] [])
    as Hrun.
  unfold export.
  destruct (export_events utc_of_local u1 courses []) as [a|x];
  destruct (export_events utc_of_local u2 courses []) as [b|y];
  specialize (Hrun ltac:(intros e He; by apply elem_of_nil in He)
                   ltac:(intros e He; by apply elem_of_nil in He)
                   ltac:(constructor)); try done.
  exists a, b. simpl. by rewrite !lookup_insert_eq.
Qed.

(* ------------------------------------------------------------------ *)
(** ** Term calendar rows written with ", " between fields *)

(** A field that starts with a space, as [csv.reader] returns it for a
    row written with ", " between fields: a padded date makes the row,
    and so [load_semester], fail ([strptime] does not skip the space); a
    padded parity tag is kept with its space, so no frequency of
    [PARITY_CHOICES] puts such a day in the default; a padded weekday
    field is read as the number without the space ([int] strips it). *)
Theorem load_row_padded_fields (ds p w : string) :
  (forall rows1 rows2,
     load_semester (rows1 ++ [String " " ds; p; w] :: rows2) = None)
  /\ (forall d, load_row [ds; String " " p; w] = Some d ->
        parity d = String " " p
        /\ forall label tags, (label, tags) ∈ PARITY_CHOICES -> parity d ∉ tags)
  /\ (w <> "" -> load_row [ds; p; String " " w] = load_row [ds; p; w]).
Proof.
  split.
  { intros rows1 rows2. unfold load_semester.
    induction rows1 as [|row rows1 IH]; simpl; [reflexivity|].
    rewrite IH. by destruct (load_row row). }
  split.
  - intros d Hd. apply load_row_spec in Hd as (ds' & ps' & ws' & [= <- <- <-] & _ & Hp & _).
    split; [done|]. intros label tags Hin Ht. rewrite Hp in Ht.
    repeat (apply elem_of_cons in Hin as [Hin|Hin]); try by apply elem_of_nil in Hin.
    all: injection Hin as _ ->.
    all: repeat (apply elem_of_cons in Ht as [Ht|Ht]); try by apply elem_of_nil in Ht.
    all: discriminate.
  - intros Hw. simpl.
    destruct (String.eqb w "") eqn:E; [by apply String.eqb_eq in E|].
    reflexivity.
Qed.

Lemma py_remove_NoDup_gone {A} `{EqDecision A} (x : A) (l : list A) :
  NoDup l -> x ∉ py_remove x l.
Proof.
  induction l as [|a l IH]; simpl; intros Hnd; [apply not_elem_of_nil|].
  apply NoDup_cons in Hnd as [Ha Hnd].
  case_decide as Hxa; [by subst|].
  intros Hin. apply elem_of_cons in Hin as [->|Hin]; [done|]. by apply IH.
Qed.

(** The checkbox returns the dates in the order they were selected, not
    in calendar order: unticking a pre-selected date and ticking it again
    moves it to the end of the list [create_course] stores (and
    [export] anchors the event on the first date of that list). *)
Theorem checkbox_retick_moves_last (choices default : list ElkaDay) (k : nat)
  (d : ElkaDay) :
  choices !! k = Some d -> k ∈ checkbox_initial choices default ->
  checkbox_result choices default [k; k]
  = checkbox_result choices default [k] ++ [d].
Proof.
  intros Hk Hin. unfold checkbox_result. cbn [foldl].
  pose proof (lookup_lt_Some _ _ _ Hk) as Hlt.
  destruct (checkbox_initial_ok choices default) as [Hnd _].
  assert (Ht1 : checkbox_toggle (length choices) (checkbox_initial choices default) k
               = py_remove k (checkbox_initial choices default)).
  { unfold checkbox_toggle. rewrite decide_False by lia. by rewrite decide_True. }
  rewrite Ht1. unfold checkbox_toggle at 1.
  rewrite decide_False by lia. rewrite decide_False by (by apply py_remove_NoDup_gone).
  rewrite omap_app. simpl. by rewrite Hk.
Qed.

Lemma checkbox_retick_moves_last_witness :
  checkbox_result (days_all sample_semester 1) (days_all sample_semester 1) [0%nat; 0%nat]
  = [mk_ElkaDay (mk_date 2022 3 7) "N" 1; mk_ElkaDay (mk_date 2022 2 28) "P" 1].
Proof.
  rewrite (checkbox_retick_moves_last (days_all sample_semester 1)
             (days_all sample_semester 1) 0 (mk_ElkaDay (mk_date 2022 2 28) "P" 1)
             eq_refl ltac:(vm_compute; left)).
  vm_compute. reflexivity.
Defined.
